(** * Rolling one-step forecast of an exchange-rate series with a feed-forward
    network: a shallow embedding of [run_ffnn_jpy_last150test.py].

    The development follows the script function by function:
    - [Np]: the few numpy/Python primitives the script relies on (ranges,
      slices, indexing, [isfinite], [nan_to_num], [allclose]), on binary64
      values;
    - [SequenceBuilder]: [create_sequences];
    - [Evaluator]: [evaluate_model];
    - [Engine]: [FFNNModel], [get_criterion], [rolling_forecast_ffnn] and
      the training loop of [train_and_predict_ffnn_step];
    - [Driver]: [main] from the loaded frame on: the grid, the loop body,
      the two dictionaries it fills, and the MAPE cell of the summary table.

    Library code (torch, scikit-learn, the transcendental functions of
    numpy) is not part of the script: it enters as Section variables, and a
    small concrete instance is given at the end of each part so that every
    statement can be evaluated. *)

From Stdlib Require Import String.
From Stdlib Require Import PrimFloat List ZArith Lia Bool Arith.
From Stdlib Require SpecFloat FloatOps FloatAxioms.
Import ListNotations.

Set Warnings "-inexact-float".

(** ** Exceptions *)

(** The Python exceptions the modelled code can raise. *)
Inductive exn : Type :=
| IndexError
| ValueError
| KeyError
| RuntimeError
| TypeError.

Inductive result (A : Type) : Type :=
| Ok (a : A)
| Raise (e : exn).

Arguments Ok {A} a.
Arguments Raise {A} e.

Definition bind {A B : Type} (m : result A) (k : A -> result B) : result B :=
  match m with
  | Ok a => k a
  | Raise e => Raise e
  end.

Declare Scope exc_scope.
Delimit Scope exc_scope with exc.
Notation "x <- m ;; k" := (bind m (fun x => k))
  (at level 61, m at next level, right associativity) : exc_scope.
Notation "' p <- m ;; k" := (bind m (fun p => k))
  (at level 61, p pattern, m at next level, right associativity) : exc_scope.
Open Scope exc_scope.

(** [for x in xs: acc = body acc x], stopping at the first exception. *)
Fixpoint for_each {S X : Type} (body : S -> X -> result S) (xs : list X) (acc : S)
  : result S :=
  match xs with
  | [] => Ok acc
  | x :: rest => acc' <- body acc x ;; for_each body rest acc'
  end.

Definition is_ok {A : Type} (r : result A) : bool :=
  match r with Ok _ => true | Raise _ => false end.

(** ** numpy and Python primitives *)

Module Np.

(** [range(a, b)] over Python integers. *)
Definition py_range (a b : Z) : list Z :=
  map (fun k => (a + Z.of_nat k)%Z) (seq 0 (Z.to_nat (b - a))).

(** The position a slice bound denotes in a sequence of length [n]:
    negative bounds count from the end, and both ends are clamped. *)
Definition slice_bound (n : nat) (x : Z) : nat :=
  if (x <? 0)%Z then Z.to_nat (Z.max 0 (x + Z.of_nat n))
  else Nat.min (Z.to_nat x) n.

(** [l[a:b]]. *)
Definition py_slice {A : Type} (a b : Z) (l : list A) : list A :=
  skipn (slice_bound (length l) a) (firstn (slice_bound (length l) b) l).

(** [l[i]]: a negative index counts from the end; out of range raises. *)
Definition py_index {A : Type} (l : list A) (i : Z) : result A :=
  let j := if (i <? 0)%Z then (i + Z.of_nat (length l))%Z else i in
  if (j <? 0)%Z then Raise IndexError
  else match nth_error l (Z.to_nat j) with
       | Some x => Ok x
       | None => Raise IndexError
       end.

Definition isfinite (x : float) : bool := is_finite x.

(** [np.nan_to_num(x, nan=.., posinf=.., neginf=..)] on one entry. *)
Definition nan_to_num1 (fill_nan fill_posinf fill_neginf x : float) : float :=
  if is_nan x then fill_nan
  else if (x =? infinity)%float then fill_posinf
  else if (x =? neg_infinity)%float then fill_neginf
  else x.

Definition nan_to_num (fill_nan fill_posinf fill_neginf : float) (xs : list float)
  : list float :=
  map (nan_to_num1 fill_nan fill_posinf fill_neginf) xs.

(** [np.max] and [np.min] of a non-empty array: a NaN entry propagates. *)
Definition maximum (a b : float) : float :=
  if is_nan a then a else if is_nan b then b else if (a <? b)%float then b else a.

Definition minimum (a b : float) : float :=
  if is_nan a then a else if is_nan b then b else if (b <? a)%float then b else a.

Definition max (xs : list float) : result float :=
  match xs with
  | [] => Raise ValueError
  | x :: rest => Ok (fold_left maximum rest x)
  end.

Definition min (xs : list float) : result float :=
  match xs with
  | [] => Raise ValueError
  | x :: rest => Ok (fold_left minimum rest x)
  end.

(** [np.isclose(a, b)] with the default [rtol=1e-05], [atol=1e-08]. *)
Definition isclose (a b : float) : bool :=
  ((abs (a - b) <=? 1e-8 + 1e-5 * abs b)%float && is_finite b)
  || (a =? b)%float.

(** [np.allclose(xs, 0)]. *)
Definition allclose0 (xs : list float) : bool :=
  forallb (fun a => isclose a 0%float) xs.

(** [np.zeros(n)]. *)
Definition zeros (n : nat) : list float := repeat 0%float n.

(** A Python [int] count used as a float operand. *)
Fixpoint float_of_nat (n : nat) : float :=
  match n with
  | O => 0%float
  | S k => (float_of_nat k + 1)%float
  end.






(** A slice with bounds inside the sequence. *)
Lemma py_slice_in_range {A : Type} (l : list A) (a b : nat) :
  (a <= b <= length l)%nat ->
  py_slice (Z.of_nat a) (Z.of_nat b) l = skipn a (firstn b l).
Proof.
  intros H. unfold py_slice, slice_bound.
  destruct (Z.ltb_spec (Z.of_nat a) 0); [lia|].
  destruct (Z.ltb_spec (Z.of_nat b) 0); [lia|].
  rewrite !Nat2Z.id. now rewrite !Nat.min_l by lia.
Qed.

Lemma py_slice_length {A : Type} (l : list A) (a b : nat) :
  (a <= b <= length l)%nat ->
  length (py_slice (Z.of_nat a) (Z.of_nat b) l) = (b - a)%nat.
Proof.
  intros H. rewrite py_slice_in_range by lia.
  rewrite length_skipn, length_firstn. lia.
Qed.

Lemma py_slice_nth {A : Type} (l : list A) (a b k : nat) :
  (a <= b <= length l)%nat -> (k < b - a)%nat ->
  nth_error (py_slice (Z.of_nat a) (Z.of_nat b) l) k = nth_error l (a + k).
Proof.
  intros H Hk. rewrite py_slice_in_range by lia.
  rewrite nth_error_skipn, nth_error_firstn.
  destruct (Nat.ltb_spec (a + k) b); [reflexivity|lia].
Qed.








End Np.


(** ** The Sequence Builder: [create_sequences] *)

Module SequenceBuilder.

(** The feature columns [load_and_prepare_data] adds to the frame. *)
Inductive column : Type :=
| price_change
| price_change_pct
| volatility
| MA20
| MA20_diff.

(** One row of the prepared frame: the price, its log-return and the
    technical features. *)
Record frame_row : Type := {
  rate : float;
  log_return : float;
  technical : column -> float
}.

(** One row of a two-dimensional array: column 0 and the other columns. *)
Definition row : Type := (float * list float)%type.

(** What callers pass as [data]: a frame, a 2-d array or a 1-d array. *)
Inductive sequence_data : Type :=
| DataFrame (df : list frame_row)
| NdArray2 (a : list row)
| NdArray1 (a : list float).

(** Lines 136-145: the array the windows are cut from.  A frame contributes
    its log-return column followed by the selected feature columns (none when
    [feature_columns] is [None] or empty); a 1-d array is reshaped to one
    column. *)
Definition data_array_of (data : sequence_data) (feature_columns : option (list column))
  : list row :=
  match data with
  | DataFrame df =>
      map (fun r =>
             (log_return r,
              match feature_columns with
              | Some fc => map (technical r) fc
              | None => []
              end)) df
  | NdArray2 a => a
  | NdArray1 a => map (fun x => (x, [])) a
  end.

(** Body of the loop of lines 150-155 at index [i]. *)
Definition sequence_step (data_array : list row) (lookback : nat)
  (acc : list (list row) * list float) (i : Z)
  : result (list (list row) * list float) :=
  let feature_sequence := Np.py_slice i (i + Z.of_nat lookback) data_array in
  r <- Np.py_index data_array (i + Z.of_nat lookback) ;;
  Ok (fst acc ++ [feature_sequence], snd acc ++ [fst r]).

(** [create_sequences]: the windows, and the targets reshaped to one column. *)
Definition create_sequences (data : sequence_data) (lookback : nat)
  (feature_columns : option (list column))
  : result (list (list row) * list (list float)) :=
  let data_array := data_array_of data feature_columns in
  '(features, targets) <-
    for_each (sequence_step data_array lookback)
      (Np.py_range 0 (Z.of_nat (length data_array) - Z.of_nat lookback)) ([], []) ;;
  Ok (features, map (fun t => [t]) targets).

(** The window starting at [i] and the target that follows it. *)
Definition window_at (data_array : list row) (lookback i : nat) : list row :=
  skipn i (firstn (i + lookback) data_array).

Definition target_at (data_array : list row) (lookback i : nat) : float :=
  nth (i + lookback) (map fst data_array) 0%float.










End SequenceBuilder.


(** ** The Evaluator: [evaluate_model] *)

Module Evaluator.

Record Metrics : Type := {
  MSE : float;
  RMSE : float;
  MAE : float;
  MAPE : float;
  R2 : float
}.

(** The dictionary returned for empty or mismatched inputs (line 383). *)
Definition worst_metrics : Metrics :=
  {| MSE := infinity; RMSE := infinity; MAE := infinity; MAPE := infinity;
     R2 := neg_infinity |}.

(** [a[mask]]: the entries of [a] at the positions where [mask] holds. *)
Definition select {A : Type} (mask : list bool) (a : list A) : list A :=
  map snd (filter fst (combine mask a)).

(** An elementwise binary operation on two arrays of one shape. *)
Definition map2 {A B C : Type} (f : A -> B -> C) (a : list A) (b : list B) : list C :=
  map (fun ab => f (fst ab) (snd ab)) (combine a b).

(** [np.sum(mask)]. *)
Definition count_true (mask : list bool) : nat := length (filter (fun b => b) mask).

(** The absolute percentage error of one position (line 427). *)
Definition abs_pct_error (t p : float) : float := abs ((t - p) / t).

(** The mask of line 420: positions whose true value exceeds 1e-7 in
    magnitude. *)
Definition mape_mask (y_true : list float) : list bool :=
  map (fun t => (1e-7 <? abs t)%float) y_true.

Section WithLibraries.

(** scikit-learn's metrics (they validate their inputs and may raise) and
    numpy's mean. *)
Variable mean_squared_error : list float -> list float -> result float.
Variable mean_absolute_error : list float -> list float -> result float.
Variable r2_score : list float -> list float -> result float.
Variable np_mean : list float -> float.

(** Lines 396-403: the values put in place of NaN, +Inf and -Inf. *)
Definition fill_values (y_true : list float) : result (float * float * float) :=
  if forallb Np.isfinite y_true && (0 <? length y_true) then
    mx <- Np.max y_true ;;
    mn <- Np.min y_true ;;
    Ok (np_mean y_true,
        if (0 <? mx)%float then (mx * 2)%float else 1e12%float,
        if (mn <? 0)%float then (mn * 2)%float else (-1e12)%float)
  else Ok (0%float, 1e12%float, (-1e12)%float).

(** Lines 385-408: predictions with their non-finite entries replaced. *)
Definition substitute_non_finite (y_true y_pred : list float) : result (list float) :=
  if negb (forallb Np.isfinite y_pred) then
    '(fill_nan, fill_posinf, fill_neginf) <- fill_values y_true ;;
    Ok (Np.nan_to_num fill_nan fill_posinf fill_neginf y_pred)
  else Ok y_pred.

(** Lines 418-430: the masked mean absolute percentage error. *)
Definition mape_of (y_true y_pred : list float) : float :=
  let mask := mape_mask y_true in
  let mape :=
    if count_true mask =? 0 then
      if Np.allclose0 y_pred then 0%float else infinity
    else
      (np_mean (map2 abs_pct_error (select mask y_true) (select mask y_pred)) * 100)%float
  in
  if negb (Np.isfinite mape) then infinity else mape.

(** Lines 411-432: the metrics of a pair of equal-length arrays. *)
Definition standard_metrics (y_true y_pred : list float) : result Metrics :=
  mse <- mean_squared_error y_true y_pred ;;
  let rmse := sqrt mse in
  mae <- mean_absolute_error y_true y_pred ;;
  r2 <- r2_score y_true y_pred ;;
  Ok {| MSE := mse; RMSE := rmse; MAE := mae; MAPE := mape_of y_true y_pred;
        R2 := r2 |}.

Definition evaluate_model (y_true_prices y_pred_prices : list float) : result Metrics :=
  if (length y_true_prices =? 0) || (length y_pred_prices =? 0)
     || negb (length y_true_prices =? length y_pred_prices)
  then Ok worst_metrics
  else
    y_pred <- substitute_non_finite y_true_prices y_pred_prices ;;
    standard_metrics y_true_prices y_pred.

(** The positions the MAPE keeps, as (true, predicted) pairs. *)
Definition kept_pairs (y_true y_pred : list float) : list (float * float) :=
  filter (fun tp => (1e-7 <? abs (fst tp))%float) (combine y_true y_pred).

Lemma finite_not_nan x : is_finite x = true -> is_nan x = false.
Proof.
  unfold is_finite. intros H.
  apply negb_true_iff, orb_false_iff in H. tauto.
Qed.

Lemma select_mask_pairs : forall (y_true y_pred : list float),
  map2 abs_pct_error (select (mape_mask y_true) y_true) (select (mape_mask y_true) y_pred) =
  map (fun tp => abs_pct_error (fst tp) (snd tp))
      (filter (fun tp => (1e-7 <? abs (fst tp))%float)
              (combine (firstn (length y_pred) y_true) (firstn (length y_true) y_pred))).
Proof.
  unfold map2, select, mape_mask.
  induction y_true as [|t ts IH]; intros [|p ps]; try reflexivity.
  - rewrite !combine_nil. reflexivity.
  - cbn. destruct (1e-7 <? abs t)%float; cbn.
    + f_equal. apply IH.
    + apply IH.
Qed.

Lemma count_true_mask_kept : forall (y_true y_pred : list float),
  length y_true = length y_pred ->
  count_true (mape_mask y_true) = length (kept_pairs y_true y_pred).
Proof.
  unfold count_true, mape_mask, kept_pairs.
  induction y_true as [|t ts IH]; intros [|p ps] H; cbn in *; try discriminate;
    [reflexivity|].
  destruct (1e-7 <? abs t)%float; cbn; [f_equal|]; apply IH; lia.
Qed.

(** The MAPE in terms of the kept positions. *)
Lemma mape_of_kept (y_true y_pred : list float) :
  length y_true = length y_pred ->
  mape_of y_true y_pred =
  let mape :=
    match kept_pairs y_true y_pred with
    | [] => if Np.allclose0 y_pred then 0%float else infinity
    | kept =>
        (np_mean (map (fun tp => abs_pct_error (fst tp) (snd tp)) kept) * 100)%float
    end in
  if negb (Np.isfinite mape) then infinity else mape.
Proof.
  intros Hlen. unfold mape_of.
  rewrite (count_true_mask_kept _ _ Hlen), select_mask_pairs.
  rewrite <- Hlen, firstn_all, Hlen, firstn_all.
  fold (kept_pairs y_true y_pred).
  destruct (kept_pairs y_true y_pred); reflexivity.
Qed.

Lemma mape_of_not_nan y_true y_pred :
  is_nan (mape_of y_true y_pred) = false /\
  (is_finite (mape_of y_true y_pred) = true \/ mape_of y_true y_pred = infinity).
Proof.
  unfold mape_of, Np.isfinite.
  match goal with |- context [negb (is_finite ?m)] => generalize m end.
  intros m. destruct (is_finite m) eqn:Hm; cbn [negb].
  - split; [now apply finite_not_nan | now left].
  - split; [reflexivity | now right].
Qed.

Lemma evaluate_model_nonempty y_true y_pred :
  length y_true = length y_pred -> 0 < length y_true ->
  evaluate_model y_true y_pred =
  (y_pred' <- substitute_non_finite y_true y_pred ;; standard_metrics y_true y_pred').
Proof.
  intros Hlen Hpos. unfold evaluate_model.
  rewrite <- Hlen, Nat.eqb_refl.
  destruct (Nat.eqb_spec (length y_true) 0); [lia|reflexivity].
Qed.

Lemma nan_to_num_length a b c xs : length (Np.nan_to_num a b c xs) = length xs.
Proof. apply length_map. Qed.

Lemma substitute_non_finite_length y_true y_pred y_pred' :
  substitute_non_finite y_true y_pred = Ok y_pred' -> length y_pred' = length y_pred.
Proof.
  unfold substitute_non_finite.
  destruct (negb (forallb Np.isfinite y_pred)).
  - destruct (fill_values y_true) as [[[a b] c]|]; cbn; [|discriminate].
    intros [= <-]. apply nan_to_num_length.
  - now intros [= <-].
Qed.


(** C6.  When either sequence is empty or the two lengths differ,
    [evaluate_model] returns (it does not raise) exactly MSE = RMSE = MAE =
    MAPE = +inf and R2 = -inf. *)
Theorem evaluate_model_empty_or_mismatched (y_true y_pred : list float) :
  length y_true = 0 \/ length y_pred = 0 \/ length y_true <> length y_pred ->
  evaluate_model y_true y_pred =
  Ok {| MSE := infinity; RMSE := infinity; MAE := infinity; MAPE := infinity;
        R2 := neg_infinity |}.
Proof.
  intros H. unfold evaluate_model.
  destruct (Nat.eqb_spec (length y_true) 0) as [|H0]; [reflexivity|].
  destruct (Nat.eqb_spec (length y_pred) 0) as [|H1]; [reflexivity|].
  destruct (Nat.eqb_spec (length y_true) (length y_pred)) as [E|]; [|reflexivity].
  exfalso. destruct H as [H|[H|H]]; contradiction.
Qed.


(** C8.  Whenever [evaluate_model] returns, its MAPE is not NaN: it is finite
    or +inf.  On non-empty equal-length inputs it is computed from the
    positions whose true value exceeds 1e-7 in magnitude only: when there are
    none it is 0 if the (substituted) predictions are all close to zero and
    +inf otherwise, and when there are some it is 100 times the mean of
    [|(t - p) / t|] over them, replaced by +inf when that is not finite. *)
Theorem evaluate_model_mape (y_true y_pred : list float) (m : Metrics) :
  evaluate_model y_true y_pred = Ok m ->
  (is_nan (MAPE m) = false /\ (is_finite (MAPE m) = true \/ MAPE m = infinity)) /\
  (0 < length y_true -> length y_true = length y_pred ->
   exists y_sub,
     substitute_non_finite y_true y_pred = Ok y_sub /\
     (forallb Np.isfinite y_pred = true -> y_sub = y_pred) /\
     match kept_pairs y_true y_sub with
     | [] => MAPE m = if Np.allclose0 y_sub then 0%float else infinity
     | kept =>
         MAPE m =
         let v := (np_mean (map (fun tp => abs ((fst tp - snd tp) / fst tp)) kept) * 100)%float in
         if negb (is_finite v) then infinity else v
     end).
Proof.
  intros Hm. split.
  - unfold evaluate_model in Hm.
    destruct (_ || _ || _).
    + injection Hm as <-. cbn. split; [reflexivity | now right].
    + destruct (substitute_non_finite y_true y_pred) as [y_sub|]; [|discriminate].
      cbn [bind] in Hm. unfold standard_metrics in Hm.
      destruct (mean_squared_error _ _); [|discriminate].
      destruct (mean_absolute_error _ _); [|discriminate].
      destruct (r2_score _ _); [|discriminate].
      injection Hm as <-. cbn [MAPE]. apply mape_of_not_nan.
  - intros Hpos Hlen. rewrite evaluate_model_nonempty in Hm by assumption.
    destruct (substitute_non_finite y_true y_pred) as [y_sub|] eqn:Hsub; [|discriminate].
    exists y_sub. split; [reflexivity|]. split.
    { intros Hfin. unfold substitute_non_finite in Hsub. rewrite Hfin in Hsub.
      now injection Hsub as <-. }
    cbn [bind] in Hm. unfold standard_metrics in Hm.
    destruct (mean_squared_error _ _); [|discriminate].
    destruct (mean_absolute_error _ _); [|discriminate].
    destruct (r2_score _ _); [|discriminate].
    injection Hm as <-. cbn [MAPE bind].
    rewrite mape_of_kept
      by (rewrite (substitute_non_finite_length _ _ _ Hsub); assumption).
    destruct (kept_pairs y_true y_sub) as [|tp kept]; cbv zeta.
    + destruct (Np.allclose0 y_sub); reflexivity.
    + reflexivity.
Qed.

End WithLibraries.

(** *** A reference instance of the library functions

    The textbook formulas, summed from left to right, behind the input
    validation of scikit-learn (a non-finite entry raises [ValueError]). *)

Definition ref_sum (xs : list float) : float := fold_left PrimFloat.add xs 0%float.

Definition ref_mean (xs : list float) : float :=
  (ref_sum xs / Np.float_of_nat (length xs))%float.

Definition ref_checked (y_true y_pred : list float) (v : float) : result float :=
  if forallb Np.isfinite y_true && forallb Np.isfinite y_pred then Ok v
  else Raise ValueError.

Definition ref_mean_squared_error (y_true y_pred : list float) : result float :=
  ref_checked y_true y_pred
    (ref_mean (map2 (fun t p => ((t - p) * (t - p))%float) y_true y_pred)).

Definition ref_mean_absolute_error (y_true y_pred : list float) : result float :=
  ref_checked y_true y_pred
    (ref_mean (map2 (fun t p => abs (t - p)) y_true y_pred)).

Definition ref_r2_score (y_true y_pred : list float) : result float :=
  let mu := ref_mean y_true in
  let ss_res := ref_sum (map2 (fun t p => ((t - p) * (t - p))%float) y_true y_pred) in
  let ss_tot := ref_sum (map (fun t => ((t - mu) * (t - mu))%float) y_true) in
  ref_checked y_true y_pred
    (if (ss_tot =? 0)%float then (if (ss_res =? 0)%float then 1%float else 0%float)
     else (1 - ss_res / ss_tot)%float).

Definition ref_evaluate_model : list float -> list float -> result Metrics :=
  evaluate_model ref_mean_squared_error ref_mean_absolute_error ref_r2_score ref_mean.

Example evaluate_model_exact_forecast :
  ref_evaluate_model [100; 102; 101]%float [100; 102; 101]%float =
  Ok {| MSE := 0; RMSE := 0; MAE := 0; MAPE := 0; R2 := 1 |}.
Proof. vm_compute. reflexivity. Qed.

Example evaluate_model_all_true_near_zero :
  option_map MAPE
    (match ref_evaluate_model [0; 1e-9]%float [0; 0]%float with
     | Ok m => Some m | Raise _ => None end) = Some 0%float /\
  option_map MAPE
    (match ref_evaluate_model [0; 1e-9]%float [0; 3]%float with
     | Ok m => Some m | Raise _ => None end) = Some infinity.
Proof. split; vm_compute; reflexivity. Qed.

Lemma evaluate_model_empty_or_mismatched_witness :
  ref_evaluate_model [] [1%float] = Ok worst_metrics /\
  ref_evaluate_model [1; 2]%float [1%float] = Ok worst_metrics.
Proof.
  split.
  - apply (evaluate_model_empty_or_mismatched
             ref_mean_squared_error ref_mean_absolute_error ref_r2_score ref_mean
             [] [1%float]).
    left. reflexivity.
  - apply (evaluate_model_empty_or_mismatched
             ref_mean_squared_error ref_mean_absolute_error ref_r2_score ref_mean
             [1; 2]%float [1%float]).
    right. right. cbn. lia.
Defined.


Lemma evaluate_model_mape_witness :
  exists m,
    ref_evaluate_model [100; 0; 200]%float [101; 5; 198]%float = Ok m /\
    MAPE m = 1%float.
Proof.
  destruct (ref_evaluate_model [100; 0; 200]%float [101; 5; 198]%float) as [m|] eqn:Hm;
    [|vm_compute in Hm; discriminate].
  exists m. split; [reflexivity|].
  destruct (evaluate_model_mape
              ref_mean_squared_error ref_mean_absolute_error ref_r2_score ref_mean
              [100; 0; 200]%float [101; 5; 198]%float m Hm) as [_ H].
  destruct H as (y_sub & Hsub & _ & H); [cbn; lia | reflexivity |].
  vm_compute in Hsub. injection Hsub as <-.
  vm_compute in H. exact H.
Defined.

End Evaluator.


(** ** The Rolling Forecast Engine

    [rolling_forecast_ffnn] is modelled as [main] runs it: the global
    [config] its progress bar reads is bound, and [feature_columns] is a
    local of [main], not a global.  Library calls are taken to return on the
    values they are given (scikit-learn refuses empty and infinite samples,
    which a prepared frame and a lookback of at least 1 do not produce). *)

Module Engine.

Import SequenceBuilder.

(** The activation modules [FFNNModel] chooses from. *)
Inductive Activation : Type :=
| Sigmoid
| Tanh
| Identity.

(** The loss modules [get_criterion] chooses from. *)
Inductive Criterion : Type :=
| MSELoss
| L1Loss.

(** The keys of [ffnn_config] the engine reads.  [main] builds its
    configurations without a ['momentum'] key, hence the option. *)
Record Config : Type := {
  hidden_sizes : list nat;
  activation : string;
  loss_type : string;
  learning_rate : float;
  momentum : option float;
  epochs : nat;
  batch_size : nat
}.

(** A two-dimensional tensor, row by row. *)
Definition Tensor : Type := list (list float).

(** What [rolling_forecast_ffnn] can return: the pair of arrays of lines 269
    and 374, or the single array [np.zeros(pred_len)] of line 300. *)
Inductive forecast : Type :=
| Arrays (true_prices predicted_prices : list float)
| Zeros (z : list float).

(** [get_criterion]. *)
Definition get_criterion (loss_type : string) : result Criterion :=
  if String.eqb loss_type "SEL" then Ok MSELoss
  else if String.eqb loss_type "AEL" then Ok L1Loss
  else Raise ValueError.

(** [x.reshape(1, n)] of a one-dimensional tensor. *)
Definition reshape_row (x : list float) (n : nat) : result Tensor :=
  if length x =? n then Ok [x] else Raise RuntimeError.

(** [X.reshape(len(X), -1)]: every window flattened, time step by time step. *)
Definition flatten_windows (X : list (list row)) : Tensor :=
  map (fun w => concat (map (fun r => fst r :: snd r) w)) X.

(** *** The library boundary

    torch: the weight and bias of a linear layer ([Weights]), what
    backpropagation leaves in [.grad] ([Gradient]), the momentum buffer the
    optimiser keeps for a parameter ([Buffer]), and the operations on them.
    Layers are drawn at random when built: [init_weights] is the draw for
    the layer at a position.  [Linear_row in out w] is the affine map of a
    layer on one sample.  [autograd layers act c x y k] is the gradient
    backpropagation computes for the layer at position [k], for the loss [c]
    on inputs [x] and labels [y] of the network with the given layer sizes,
    parameters and activation.  [clipped_grad cap all g] is what
    [clip_grad_norm_] with that cap leaves of the gradient [g] when [all]
    are the gradients of the parameters.  [ReduceLROnPlateau factor patience]
    is a fresh scheduler (mode ['min']) and [scheduler_step s loss rate] its
    [step] on an epoch loss: the scheduler and the learning rate after it.
    [DataLoader size X y epoch] lists the batches a shuffling loader of that
    batch size yields in that epoch.
    scikit-learn: [StandardScaler] with its [fit], [transform] and
    [inverse_transform] on one value.  numpy: [exp]. *)
Class Library : Type := {
  Weights : Type;
  Gradient : Type;
  Buffer : Type;
  init_weights : nat -> nat -> nat -> Weights;
  Linear_row : nat -> nat -> Weights -> list float -> list float;
  sigmoid : float -> float;
  tanh : float -> float;
  criterion_loss : Criterion -> Tensor -> Tensor -> float;
  autograd :
    list (nat * nat * Weights) -> Activation -> Criterion -> Tensor -> Tensor ->
    nat -> Gradient;
  grad_accumulate : Gradient -> Gradient -> Gradient;
  sgd_update :
    float -> float -> float -> Weights -> Gradient -> option Buffer ->
    Weights * option Buffer;
  clipped_grad : float -> list Gradient -> Gradient -> Gradient;
  Scheduler : Type;
  ReduceLROnPlateau : float -> nat -> Scheduler;
  scheduler_step : Scheduler -> float -> float -> Scheduler * float;
  DataLoader : nat -> Tensor -> Tensor -> nat -> list (Tensor * Tensor);
  StandardScaler : Type;
  scaler_fit : list float -> StandardScaler;
  scaler_transform : StandardScaler -> float -> float;
  scaler_inverse_transform : StandardScaler -> float -> float;
  np_exp : float -> float
}.

Section WithLibrary.

Context {lib : Library}.

(** *** [FFNNModel] *)

(** An [nn.Linear]: its sizes, its parameters, the gradient stored on them
    and the momentum buffer the optimiser keeps for them. *)
Record Linear : Type := {
  in_features : nat;
  out_features : nat;
  weights : Weights;
  grad : option Gradient;
  momentum_buffer : option Buffer
}.

Definition nn_Linear (position in_size out_size : nat) : Linear :=
  {| in_features := in_size; out_features := out_size;
     weights := init_weights position in_size out_size;
     grad := None; momentum_buffer := None |}.

(** The module list of [FFNNModel], its last element apart, with the
    activation and the train/eval flag. *)
Record FFNNModel : Type := {
  hidden_layers : list Linear;
  output_layer : Linear;
  activation_fn : Activation;
  training : bool
}.

(** Lines 102-103: the layers between consecutive hidden sizes. *)
Fixpoint hidden_to_hidden (position : nat) (sizes : list nat) : list Linear :=
  match sizes with
  | a :: ((b :: _) as rest) =>
      nn_Linear position a b :: hidden_to_hidden (S position) rest
  | _ => []
  end.

(** [FFNNModel.__init__]. *)
Definition FFNNModel_init (input_size : nat) (sizes : list nat) (output_size : nat)
  (activation_name : string) : result FFNNModel :=
  match sizes with
  | [] => Raise IndexError
  | h0 :: _ =>
      let first := nn_Linear 0 input_size h0 in
      let between := hidden_to_hidden 1 sizes in
      let output := nn_Linear (length sizes) (last sizes 0) output_size in
      act <- (if String.eqb activation_name "sigmoid" then Ok Sigmoid
              else if String.eqb activation_name "tanh" then Ok Tanh
              else if String.eqb activation_name "linear" then Ok Identity
              else Raise ValueError) ;;
      Ok {| hidden_layers := first :: between; output_layer := output;
            activation_fn := act; training := true |}
  end.

(** A linear layer acts on every sample of the batch. *)
Definition layer_forward (l : Linear) (x : Tensor) : Tensor :=
  map (Linear_row (in_features l) (out_features l) (weights l)) x.

(** [nn.Sigmoid], [nn.Tanh] and [nn.Identity] act entry by entry. *)
Definition activation_apply (a : Activation) (v : float) : float :=
  match a with
  | Sigmoid => sigmoid v
  | Tanh => tanh v
  | Identity => v
  end.

Definition Activation_forward (a : Activation) (x : Tensor) : Tensor :=
  map (map (activation_apply a)) x.

(** [FFNNModel.forward]: the activation follows every layer but the last. *)
Definition forward (m : FFNNModel) (x : Tensor) : Tensor :=
  layer_forward (output_layer m)
    (fold_left (fun x layer => Activation_forward (activation_fn m) (layer_forward layer x))
               (hidden_layers m) x).

(** [model.train()] and [model.eval()]. *)
Definition set_training (flag : bool) (m : FFNNModel) : FFNNModel :=
  {| hidden_layers := hidden_layers m; output_layer := output_layer m;
     activation_fn := activation_fn m; training := flag |}.

(** *** Gradients and the optimiser *)

Definition set_grad (g : option Gradient) (l : Linear) : Linear :=
  {| in_features := in_features l; out_features := out_features l;
     weights := weights l; grad := g; momentum_buffer := momentum_buffer l |}.

Definition map_layers (f : Linear -> Linear) (m : FFNNModel) : FFNNModel :=
  {| hidden_layers := map f (hidden_layers m); output_layer := f (output_layer m);
     activation_fn := activation_fn m; training := training m |}.

(** [optimizer.zero_grad()]. *)
Definition zero_grad (m : FFNNModel) : FFNNModel := map_layers (set_grad None) m.

Definition deposit (g : Gradient) (l : Linear) : Linear :=
  set_grad (Some (match grad l with
                  | None => g
                  | Some old => grad_accumulate old g
                  end)) l.

Fixpoint deposit_from (position : nat) (g : nat -> Gradient) (ls : list Linear)
  : list Linear :=
  match ls with
  | [] => []
  | l :: rest => deposit (g position) l :: deposit_from (S position) g rest
  end.

(** The layer sizes and parameters of a model, in module-list order, with
    its activation: what its outputs and gradients are functions of. *)
Definition network (m : FFNNModel) : list (nat * nat * Weights) * Activation :=
  (map (fun l => (in_features l, out_features l, weights l))
       (hidden_layers m ++ [output_layer m]),
   activation_fn m).

(** [loss.backward()]: the gradient of every layer is added to its [.grad]. *)
Definition backward (c : Criterion) (m : FFNNModel) (x y : Tensor) : FFNNModel :=
  let g := autograd (fst (network m)) (snd (network m)) c x y in
  {| hidden_layers := deposit_from 0 g (hidden_layers m);
     output_layer := deposit (g (length (hidden_layers m))) (output_layer m);
     activation_fn := activation_fn m; training := training m |}.

(** The hyper-parameters of [optim.SGD]. *)
Record SGD : Type := {
  lr : float;
  sgd_momentum : float;
  weight_decay : float
}.

Definition step_layer (o : SGD) (l : Linear) : Linear :=
  match grad l with
  | None => l
  | Some g =>
      let '(w, b) :=
        sgd_update (lr o) (sgd_momentum o) (weight_decay o) (weights l) g
                   (momentum_buffer l) in
      {| in_features := in_features l; out_features := out_features l;
         weights := w; grad := grad l; momentum_buffer := b |}
  end.

(** [optimizer.step()]: every parameter that holds a gradient moves. *)
Definition optimizer_step (o : SGD) (m : FFNNModel) : FFNNModel :=
  map_layers (step_layer o) m.

(** The gradients the parameters of a model hold. *)
Definition gradients (m : FFNNModel) : list Gradient :=
  flat_map (fun l => match grad l with
                     | Some g => [g]
                     | None => []
                     end)
           (hidden_layers m ++ [output_layer m]).

(** [torch.nn.utils.clip_grad_norm_(model.parameters(), max_norm)]. *)
Definition clip_grad_norm_ (max_norm : float) (m : FFNNModel) : FFNNModel :=
  let all := gradients m in
  map_layers (fun l => set_grad (option_map (clipped_grad max_norm all) (grad l)) l) m.

(** The parameters of a model, layer by layer. *)
Definition parameters (m : FFNNModel) : list Weights :=
  map weights (hidden_layers m ++ [output_layer m]).

(** *** Phase 1: the initial training of lines 311-325 *)

(** The body of the batch loop (lines 316-322): the model after the step and
    the loss of the batch. *)
Definition train_batch (c : Criterion) (o : SGD) (m : FFNNModel)
  (batch : Tensor * Tensor) : FFNNModel * float :=
  let m := zero_grad m in
  let outputs := forward m (fst batch) in
  let loss := criterion_loss c outputs (snd batch) in
  let m := backward c m (fst batch) (snd batch) in
  let m := optimizer_step o m in
  (m, loss).

(** One pass over the loader: the model, the sum of the batch losses, the
    number of batches. *)
Definition run_batches (c : Criterion) (o : SGD) (batches : list (Tensor * Tensor))
  (m : FFNNModel) : FFNNModel * float * nat :=
  fold_left (fun acc batch =>
               let '(m, epoch_loss, batch_count) := acc in
               let '(m', loss) := train_batch c o m batch in
               (m', (epoch_loss + loss)%float, S batch_count))
            batches (m, 0%float, 0).

Definition mean_loss (epoch_loss : float) (batch_count : nat) : float :=
  if 0 <? batch_count then (epoch_loss / Np.float_of_nat batch_count)%float
  else epoch_loss.

(** One epoch of lines 312-325: the model it leaves, and the printed mean
    loss appended to the log. *)
Definition initial_epoch (c : Criterion) (o : SGD)
  (loader : nat -> list (Tensor * Tensor))
  (acc : FFNNModel * list float) (epoch : nat) : FFNNModel * list float :=
  let '(m, epoch_loss, batch_count) := run_batches c o (loader epoch) (fst acc) in
  (m, snd acc ++ [mean_loss epoch_loss batch_count]).

Definition initial_training (c : Criterion) (o : SGD)
  (loader : nat -> list (Tensor * Tensor)) (n_epochs : nat) (m : FFNNModel)
  : FFNNModel * list float :=
  fold_left (initial_epoch c o loader) (seq 0 n_epochs) (set_training true m, []).

(** *** Phase 2: the walk-forward loop of lines 335-372 *)

(** What one iteration feeds to the network: the index, the transform in
    use, the model that predicts, the standardized window, and the
    standardized label with the loss of the update when one is made. *)
Record Iteration : Type := {
  it_index : Z;
  it_scaler : StandardScaler;
  it_model : FFNNModel;
  it_window : list float;
  it_label : option float;
  it_update_loss : option float
}.

Record LoopState : Type := {
  ls_model : FFNNModel;
  ls_true : list float;
  ls_pred : list float;
  ls_trace : list Iteration
}.

(** Lines 351-360: the incremental update on one new sample. *)
Definition online_update (c : Criterion) (m : FFNNModel) (new_X new_y : Tensor)
  : FFNNModel * float :=
  let m := set_training true m in
  let m := zero_grad m in
  let output := forward m new_X in
  let loss := criterion_loss c output new_y in
  let m := backward c m new_X new_y in
  (m, loss).

(** The body of the loop at index [i]. *)
Definition walk_step (log_returns original_prices : list float) (lookback : nat)
  (scaler : StandardScaler) (c : Criterion) (st : LoopState) (i : Z)
  : result LoopState :=
  let num_total_log_points := Z.of_nat (length log_returns) in
  let current_sequence := Np.py_slice (i - Z.of_nat lookback) i log_returns in
  let scaled_sequence := map (scaler_transform scaler) current_sequence in
  let m_eval := set_training false (ls_model st) in
  X_pred <- reshape_row scaled_sequence lookback ;;
  let pred_scaled := concat (forward m_eval X_pred) in
  let predicted_log_return := map (scaler_inverse_transform scaler) pred_scaled in
  '(m, label, loss) <-
    (if (i <? num_total_log_points - 1)%Z then
       new_X <- reshape_row scaled_sequence lookback ;;
       r <- Np.py_index log_returns i ;;
       let new_y := [[scaler_transform scaler r]] in
       let '(m, loss) := online_update c m_eval new_X new_y in
       Ok (m, Some (scaler_transform scaler r), Some loss)
     else Ok (m_eval, None, None)) ;;
  last_actual_price <- Np.py_index original_prices i ;;
  p0 <- Np.py_index predicted_log_return 0 ;;
  let predicted_price := (last_actual_price * np_exp p0)%float in
  actual_price <-
    (if (i + 1 <? Z.of_nat (length original_prices))%Z then
       a <- Np.py_index original_prices (i + 1) ;; Ok (Some a)
     else Ok None) ;;
  let it := {| it_index := i; it_scaler := scaler; it_model := m_eval;
               it_window := scaled_sequence; it_label := label;
               it_update_loss := loss |} in
  Ok match actual_price with
     | Some a =>
         {| ls_model := m; ls_true := ls_true st ++ [a];
            ls_pred := ls_pred st ++ [predicted_price];
            ls_trace := ls_trace st ++ [it] |}
     | None =>
         {| ls_model := m; ls_true := ls_true st; ls_pred := ls_pred st;
            ls_trace := ls_trace st ++ [it] |}
     end.

(** *** [rolling_forecast_ffnn] *)

(** A run of the engine: what it returns, together with what it computed on
    the way (the transform, the model phase 1 leaves, the printed epoch
    losses, the iterations of the loop, the model at the end). *)
Record Run : Type := {
  returned : forecast;
  fitted_scaler : option StandardScaler;
  trained_model : option FFNNModel;
  epoch_log : list float;
  iterations : list Iteration;
  last_model : option FFNNModel
}.

Definition early_return (f : forecast) (scaler : option StandardScaler) : Run :=
  {| returned := f; fitted_scaler := scaler; trained_model := None;
     epoch_log := []; iterations := []; last_model := None |}.

(** The script binds [feature_columns] inside [main] only, so the test
    ['feature_columns' in globals()] of lines 272, 293 and 295 is false: the
    input width is [lookback] and the windows are cut from the standardized
    log-returns alone. *)
Definition rolling_forecast_run (data_df : list frame_row) (lookback pred_len : nat)
  (ffnn_config : Config) (fixed_test_set_size : Z) : result Run :=
  let log_returns := map log_return data_df in
  let original_prices := map rate data_df in
  let num_total_log_points := Z.of_nat (length log_returns) in
  let test_start_idx_log := (num_total_log_points - fixed_test_set_size)%Z in
  if (test_start_idx_log <? Z.of_nat lookback)%Z then
    Ok (early_return (Arrays [] []) None)
  else
    let input_dim := lookback in
    model <- FFNNModel_init input_dim (hidden_sizes ffnn_config) 1
               (activation ffnn_config) ;;
    criterion <- get_criterion (loss_type ffnn_config) ;;
    let optimizer :=
      {| lr := learning_rate ffnn_config;
         sgd_momentum := match momentum ffnn_config with
                         | Some mu => mu
                         | None => 0.9%float
                         end;
         weight_decay := 0%float |} in
    let train_returns := Np.py_slice 0 test_start_idx_log log_returns in
    let scaler := scaler_fit train_returns in
    let scaled_log_returns := map (scaler_transform scaler) train_returns in
    '(X_train_all, y_train_all) <-
      create_sequences (NdArray2 (map (fun x => (x, [])) scaled_log_returns))
        lookback None ;;
    if length X_train_all =? 0 then
      Ok (early_return (Zeros (Np.zeros pred_len)) (Some scaler))
    else
      let X_train_all := flatten_windows X_train_all in
      let train_loader := DataLoader (batch_size ffnn_config) X_train_all y_train_all in
      let '(model, log) :=
        initial_training criterion optimizer train_loader (epochs ffnn_config) model in
      st <- for_each (walk_step log_returns original_prices lookback scaler criterion)
              (Np.py_range test_start_idx_log
                 (num_total_log_points - Z.of_nat pred_len + 1))
              {| ls_model := model; ls_true := []; ls_pred := []; ls_trace := [] |} ;;
      Ok {| returned := Arrays (ls_true st) (ls_pred st);
            fitted_scaler := Some scaler;
            trained_model := Some model;
            epoch_log := log;
            iterations := ls_trace st;
            last_model := Some (ls_model st) |}.

Definition rolling_forecast_ffnn (data_df : list frame_row) (lookback pred_len : nat)
  (ffnn_config : Config) (fixed_test_set_size : Z) : result forecast :=
  run <- rolling_forecast_run data_df lookback pred_len ffnn_config
           fixed_test_set_size ;;
  Ok (returned run).

(** *** [train_and_predict_ffnn_step]: training with early stopping

    The engine does not call this function; it is the only place of the
    script with gradient clipping, a learning-rate scheduler, early stopping
    and a saved best state. *)

(** [model.state_dict()]: the dictionary of the model's parameter tensors,
    one entry per layer.  The entries are the tensors of the model
    themselves, not copies, and [.copy()] copies the dictionary only: an
    entry is modelled by the position of the layer whose tensor it is. *)
Definition state_dict (m : FFNNModel) : list nat :=
  seq 0 (S (length (hidden_layers m))).

(** The tensor an entry refers to, read in the model as it is now. *)
Definition referenced (m : FFNNModel) (entry : nat) : option Weights :=
  nth_error (parameters m) entry.

(** [param.copy_(tensor)]. *)
Definition copy_into (l : Linear) (w : option Weights) : Linear :=
  match w with
  | Some w =>
      {| in_features := in_features l; out_features := out_features l;
         weights := w; grad := grad l; momentum_buffer := momentum_buffer l |}
  | None => l
  end.

Fixpoint load_layers (live : FFNNModel) (ls : list Linear) (entries : list nat)
  : list Linear :=
  match ls, entries with
  | l :: ls', e :: es => copy_into l (referenced live e) :: load_layers live ls' es
  | _, _ => ls
  end.

(** [model.load_state_dict(d)]: every parameter receives the tensor of its
    entry. *)
Definition load_state_dict (m : FFNNModel) (d : list nat) : FFNNModel :=
  {| hidden_layers := load_layers m (hidden_layers m) d;
     output_layer :=
       copy_into (output_layer m)
         (match nth_error d (length (hidden_layers m)) with
          | Some e => referenced m e
          | None => None
          end);
     activation_fn := activation_fn m; training := training m |}.

(** The state of the epoch loop of lines 201-238. *)
Record StepState : Type := {
  ss_model : FFNNModel;
  ss_lr : float;
  ss_scheduler : Scheduler;
  ss_best_loss : float;
  ss_patience_counter : nat;
  ss_best_model_state : option (list nat);
  ss_stopped : bool;
  ss_log : list float
}.

(** The body of the batch loop (lines 211-221), with the clipping of line
    217. *)
Definition step_batch (c : Criterion) (o : SGD) (m : FFNNModel)
  (batch : Tensor * Tensor) : FFNNModel * float :=
  let m := zero_grad m in
  let outputs := forward m (fst batch) in
  let loss := criterion_loss c outputs (snd batch) in
  let m := backward c m (fst batch) (snd batch) in
  let m := clip_grad_norm_ 1%float m in
  let m := optimizer_step o m in
  (m, loss).

Definition step_batches (c : Criterion) (o : SGD) (batches : list (Tensor * Tensor))
  (m : FFNNModel) : FFNNModel * float * nat :=
  fold_left (fun acc batch =>
               let '(m, epoch_loss, batch_count) := acc in
               let '(m', loss) := step_batch c o m batch in
               (m', (epoch_loss + loss)%float, S batch_count))
            batches (m, 0%float, 0).

(** The [patience] of line 202. *)
Definition patience : nat := 20.

(** One epoch of lines 207-238; after the [break] nothing runs. *)
Definition step_epoch (c : Criterion) (mu : float)
  (loader : nat -> list (Tensor * Tensor)) (st : StepState) (epoch : nat)
  : StepState :=
  if ss_stopped st then st
  else
    let o := {| lr := ss_lr st; sgd_momentum := mu; weight_decay := 0.0001%float |} in
    let '(m, epoch_loss, batch_count) := step_batches c o (loader epoch) (ss_model st) in
    let avg_epoch_loss := mean_loss epoch_loss batch_count in
    let '(scheduler, rate) := scheduler_step (ss_scheduler st) avg_epoch_loss (ss_lr st) in
    if (avg_epoch_loss <? ss_best_loss st)%float then
      {| ss_model := m; ss_lr := rate; ss_scheduler := scheduler;
         ss_best_loss := avg_epoch_loss; ss_patience_counter := 0;
         ss_best_model_state := Some (state_dict m);
         ss_stopped := false; ss_log := ss_log st ++ [avg_epoch_loss] |}
    else
      {| ss_model := m; ss_lr := rate; ss_scheduler := scheduler;
         ss_best_loss := ss_best_loss st;
         ss_patience_counter := S (ss_patience_counter st);
         ss_best_model_state := ss_best_model_state st;
         ss_stopped := patience <=? S (ss_patience_counter st);
         ss_log := ss_log st ++ [avg_epoch_loss] |}.

Definition step_training (c : Criterion) (mu rate : float)
  (loader : nat -> list (Tensor * Tensor)) (n_epochs : nat) (m : FFNNModel)
  : StepState :=
  fold_left (step_epoch c mu loader) (seq 0 n_epochs)
    {| ss_model := set_training true m; ss_lr := rate;
       ss_scheduler := ReduceLROnPlateau 0.5%float 10;
       ss_best_loss := infinity; ss_patience_counter := 0;
       ss_best_model_state := None; ss_stopped := false; ss_log := [] |}.

(** Lines 241-242: the reload of the saved state. *)
Definition reload_best (st : StepState) : FFNNModel :=
  match ss_best_model_state st with
  | Some d => load_state_dict (ss_model st) d
  | None => ss_model st
  end.

Definition train_and_predict_ffnn_step (data_df : list frame_row)
  (technical_columns : option (list column)) (lookback pred_len : nat)
  (ffnn_config : Config) : result (list float) :=
  let input_dim :=
    match technical_columns with
    | Some ((_ :: _) as columns) => lookback * (1 + length columns)
    | _ => lookback
    end in
  model <- FFNNModel_init input_dim (hidden_sizes ffnn_config) 1
             (activation ffnn_config) ;;
  criterion <- get_criterion (loss_type ffnn_config) ;;
  mu <- match momentum ffnn_config with
        | Some mu => Ok mu
        | None => Raise KeyError
        end ;;
  '(X_train_all, y_train_all) <-
    create_sequences (DataFrame data_df) lookback technical_columns ;;
  if length X_train_all =? 0 then Ok (Np.zeros pred_len)
  else
    let X_train_all := flatten_windows X_train_all in
    let train_loader := DataLoader (batch_size ffnn_config) X_train_all y_train_all in
    let st := step_training criterion mu (learning_rate ffnn_config) train_loader
                (epochs ffnn_config) model in
    let model := set_training false (reload_best st) in
    let n := Z.of_nat (length data_df) in
    '(windows, _) <-
      create_sequences
        (DataFrame (Np.py_slice (- Z.of_nat lookback - 1) n data_df))
        lookback technical_columns ;;
    let last_sequence := Np.py_slice (-1) (Z.of_nat (length windows)) windows in
    let last_sequence := [concat (flatten_windows last_sequence)] in
    let prediction := concat (forward model last_sequence) in
    Ok (firstn pred_len prediction).

(** *** Facts about the network operations *)

(** The one assumption on the library: a linear layer with [out] output
    features returns [out] values per sample. *)
Hypothesis Linear_row_length :
  forall i o w x, length (Linear_row i o w x) = o.

Definition output_size (m : FFNNModel) : nat := out_features (output_layer m).


Lemma fold_left_invariant {S X : Type} (P : S -> Prop) (f : S -> X -> S) :
  (forall a x, P a -> P (f a x)) ->
  forall l a, P a -> P (fold_left f l a).
Proof.
  intros Hf l. induction l as [|x l IH]; intros a Ha; cbn; [assumption|].
  apply IH, Hf, Ha.
Qed.



Lemma hidden_forward_length (act : Activation) (ls : list Linear) : forall x : Tensor,
  length (fold_left (fun x layer => Activation_forward act (layer_forward layer x)) ls x)
  = length x.
Proof.
  induction ls as [|l ls IH]; intros x; cbn [fold_left]; [reflexivity|].
  rewrite IH. unfold Activation_forward, layer_forward. now rewrite !length_map.
Qed.















Lemma FFNNModel_init_output_size input_size sizes output_size' name m :
  FFNNModel_init input_size sizes output_size' name = Ok m ->
  output_size m = output_size'.
Proof.
  unfold FFNNModel_init. destruct sizes as [|h0 rest]; [discriminate|].
  destruct (String.eqb name "sigmoid");
    [|destruct (String.eqb name "tanh"); [|destruct (String.eqb name "linear")]];
    cbn [bind]; try discriminate; intros [= <-]; reflexivity.
Qed.

(** *** The walk-forward loop, iteration by iteration *)













(** *** The engine on a feasible configuration *)

(** A configuration [FFNNModel] and [get_criterion] accept. *)
Definition valid_config (cfg : Config) : bool :=
  negb (length (hidden_sizes cfg) =? 0)
  && (String.eqb (activation cfg) "sigmoid" || String.eqb (activation cfg) "tanh"
      || String.eqb (activation cfg) "linear")
  && (String.eqb (loss_type cfg) "SEL" || String.eqb (loss_type cfg) "AEL").

(** The optimiser of lines 280-284. *)
Definition engine_optimizer (cfg : Config) : SGD :=
  {| lr := learning_rate cfg;
     sgd_momentum := match momentum cfg with
                     | Some mu => mu
                     | None => 0.9%float
                     end;
     weight_decay := 0%float |}.

(** The transform of line 289, fit on the log-returns before [test_start]. *)
Definition engine_scaler (log_returns : list float) (test_start : Z) : StandardScaler :=
  scaler_fit (Np.py_slice 0 test_start log_returns).

(** The training windows and targets of lines 292-303. *)
Definition engine_training_set (log_returns : list float) (lookback : nat)
  (test_start : Z) : Tensor * Tensor :=
  let scaler := engine_scaler log_returns test_start in
  let data_array :=
    map (fun x => (x, @nil float))
        (map (scaler_transform scaler) (Np.py_slice 0 test_start log_returns)) in
  let count := length data_array - lookback in
  (flatten_windows (map (window_at data_array lookback) (seq 0 count)),
   map (fun i => [target_at data_array lookback i]) (seq 0 count)).

(** The loader of line 309. *)
Definition engine_loader (log_returns : list float) (lookback : nat) (cfg : Config)
  (test_start : Z) : nat -> list (Tensor * Tensor) :=
  DataLoader (batch_size cfg)
    (fst (engine_training_set log_returns lookback test_start))
    (snd (engine_training_set log_returns lookback test_start)).

Lemma valid_config_accepted (cfg : Config) (input_size : nat) :
  valid_config cfg = true ->
  exists m0 c,
    FFNNModel_init input_size (hidden_sizes cfg) 1 (activation cfg) = Ok m0 /\
    get_criterion (loss_type cfg) = Ok c /\
    output_size m0 = 1.
Proof.
  unfold valid_config. intros H.
  apply andb_true_iff in H. destruct H as [H Hloss].
  apply andb_true_iff in H. destruct H as [Hsizes Hact].
  assert (Hc : exists c, get_criterion (loss_type cfg) = Ok c).
  { unfold get_criterion.
    destruct (String.eqb (loss_type cfg) "SEL"); [now eexists|].
    destruct (String.eqb (loss_type cfg) "AEL"); [now eexists|discriminate]. }
  destruct Hc as [c Hc].
  assert (Hm : exists m0, FFNNModel_init input_size (hidden_sizes cfg) 1 (activation cfg)
                          = Ok m0).
  { unfold FFNNModel_init.
    destruct (hidden_sizes cfg) as [|h0 rest]; [discriminate|].
    destruct (String.eqb (activation cfg) "sigmoid"); [now eexists|].
    destruct (String.eqb (activation cfg) "tanh"); [now eexists|].
    destruct (String.eqb (activation cfg) "linear"); [now eexists|discriminate]. }
  destruct Hm as [m0 Hm].
  exists m0, c. repeat split; try assumption.
  now apply FFNNModel_init_output_size in Hm.
Qed.


(** *** What the loop collects *)









(** *** Phase 1, epoch by epoch *)











(** *** Causality of the loop *)








(** *** The stand-alone training: reload and early stopping *)

Definition layer_count (m : FFNNModel) : nat := length (hidden_layers m).

Lemma layer_count_map_layers f m : layer_count (map_layers f m) = layer_count m.
Proof. unfold layer_count, map_layers. cbn. apply length_map. Qed.

Lemma deposit_from_length g : forall ls position,
  length (deposit_from position g ls) = length ls.
Proof. induction ls as [|l ls IH]; intros position; cbn; [reflexivity|]. now rewrite IH. Qed.

Lemma layer_count_backward c m x y : layer_count (backward c m x y) = layer_count m.
Proof. unfold layer_count, backward. cbn. apply deposit_from_length. Qed.

Lemma layer_count_step_batch c o m batch :
  layer_count (fst (step_batch c o m batch)) = layer_count m.
Proof.
  unfold step_batch. cbn [fst]. unfold optimizer_step, clip_grad_norm_, zero_grad.
  now rewrite !layer_count_map_layers, layer_count_backward, layer_count_map_layers.
Qed.

Lemma layer_count_step_batches c o batches m :
  layer_count (fst (fst (step_batches c o batches m))) = layer_count m.
Proof.
  unfold step_batches.
  apply (fold_left_invariant
           (fun acc : FFNNModel * float * nat => layer_count (fst (fst acc)) = layer_count m));
    [|reflexivity].
  intros [[m1 l1] n1] batch H. cbn [fst] in *.
  pose proof (layer_count_step_batch c o m1 batch) as Hb.
  destruct (step_batch c o m1 batch) as [m2 l2]. cbn [fst] in *. congruence.
Qed.




(** What the epoch loop maintains: the saved state is the dictionary of the
    live tensors; the patience counter counts the latest logged losses, none
    of which is below the best loss, and stays within [patience]; the loop
    has stopped exactly when the counter has reached [patience]. *)
Definition step_invariant (layers : nat) (st : StepState) : Prop :=
  layer_count (ss_model st) = layers /\
  (forall d, ss_best_model_state st = Some d -> d = seq 0 (S layers)) /\
  ss_patience_counter st <= length (ss_log st) /\
  ss_patience_counter st <= patience /\
  (ss_stopped st = true <-> ss_patience_counter st = patience) /\
  forallb (fun l => negb (l <? ss_best_loss st)%float)
          (skipn (length (ss_log st) - ss_patience_counter st) (ss_log st)) = true.

Lemma step_epoch_invariant c mu loader layers st epoch :
  step_invariant layers st -> step_invariant layers (step_epoch c mu loader st epoch).
Proof.
  intros Hinv. pose proof Hinv as (Hcount & Hbest & Hlog & Hpat & Hstop & Hbad).
  unfold step_epoch.
  destruct (ss_stopped st) eqn:Hs; [exact Hinv|]. clear Hinv.
  assert (Hlt : ss_patience_counter st < patience).
  { destruct (Nat.eq_dec (ss_patience_counter st) patience) as [E|E]; [|lia].
    apply Hstop in E. congruence. }
  pose proof (layer_count_step_batches c
                {| lr := ss_lr st; sgd_momentum := mu; weight_decay := 0.0001%float |}
                (loader epoch) (ss_model st)) as Hm.
  destruct (step_batches _ _ _ _) as [[m l] n]. cbn [fst] in Hm.
  destruct (scheduler_step _ _ _) as [sch rate].
  destruct (mean_loss l n <? ss_best_loss st)%float eqn:Himp.
  - unfold step_invariant.
    cbn [ss_model ss_best_model_state ss_patience_counter ss_log ss_stopped ss_best_loss].
    split; [congruence|].
    split; [intros d [= <-]; unfold state_dict; fold (layer_count m); congruence|].
    split; [lia|]. split; [lia|].
    split; [split; [discriminate|unfold patience; discriminate]|].
    rewrite Nat.sub_0_r, skipn_all. reflexivity.
  - unfold step_invariant.
    cbn [ss_model ss_best_model_state ss_patience_counter ss_log ss_stopped ss_best_loss].
    split; [congruence|]. split; [assumption|].
    rewrite length_app. cbn [length].
    split; [lia|]. split; [lia|].
    split.
    { destruct (Nat.leb_spec patience (S (ss_patience_counter st))); split;
        intros; try lia; try discriminate; reflexivity. }
    replace (length (ss_log st) + 1 - S (ss_patience_counter st))
      with (length (ss_log st) - ss_patience_counter st) by lia.
    rewrite skipn_app, forallb_app, Hbad.
    replace (length (ss_log st) - ss_patience_counter st - length (ss_log st)) with 0 by lia.
    cbn [skipn forallb andb]. now rewrite Himp.
Qed.

Lemma step_training_invariant c mu rate loader n m :
  step_invariant (layer_count m) (step_training c mu rate loader n m).
Proof.
  unfold step_training.
  apply (fold_left_invariant (step_invariant (layer_count m))).
  - intros st epoch. apply step_epoch_invariant.
  - unfold step_invariant, patience. cbn. repeat split; try lia; discriminate.
Qed.


(** The stand-alone training stops after [patience] epochs in a row without
    a loss below the best one: it never logs more than 20 such epochs, and
    it has stopped exactly when it has logged 20 of them. *)
Lemma step_training_early_stopping c mu rate loader n m :
  let st := step_training c mu rate loader n m in
  ss_patience_counter st <= 20 /\
  (ss_stopped st = true <-> ss_patience_counter st = 20) /\
  forallb (fun l => negb (l <? ss_best_loss st)%float)
          (skipn (length (ss_log st) - ss_patience_counter st) (ss_log st)) = true.
Proof.
  intros st.
  destruct (step_training_invariant c mu rate loader n m)
    as (_ & _ & _ & Hpat & Hstop & Hbad).
  fold st in Hpat, Hstop, Hbad. exact (conj Hpat (conj Hstop Hbad)).
Qed.

(** *** More on the network and on the engine's edges *)

Lemma hidden_to_hidden_sizes : forall sizes position,
  map in_features (hidden_to_hidden position sizes) = removelast sizes /\
  map out_features (hidden_to_hidden position sizes) = tl sizes.
Proof.
  induction sizes as [|a rest IH]; intros position; [split; reflexivity|].
  destruct rest as [|b rest]; [split; reflexivity|].
  destruct (IH (S position)) as [Hin Hout].
  change (hidden_to_hidden position (a :: b :: rest))
    with (nn_Linear position a b :: hidden_to_hidden (S position) (b :: rest)).
  rewrite !map_cons, Hin, Hout. split; reflexivity.
Qed.

(** X1.  A model that [FFNNModel] builds has one layer more than there are
    hidden sizes; the layers chain: the first takes [input_size] inputs,
    layer [k+1] takes as many inputs as layer [k] has outputs (the [k]-th
    hidden size), and the last returns [output_size] values; no layer holds
    a gradient or a momentum buffer yet, and the model is in training
    mode. *)
Theorem FFNNModel_init_layers (input_size : nat) (sizes : list nat) (output_size' : nat)
  (name : string) (m : FFNNModel) :
  FFNNModel_init input_size sizes output_size' name = Ok m ->
  let layers := hidden_layers m ++ [output_layer m] in
  length layers = length sizes + 1 /\
  map in_features layers = input_size :: sizes /\
  map out_features layers = sizes ++ [output_size'] /\
  Forall (fun l => grad l = None /\ momentum_buffer l = None) layers /\
  training m = true.
Proof.
  unfold FFNNModel_init. destruct sizes as [|h0 rest]; [discriminate|].
  intros H.
  assert (Hm : exists act,
             m = {| hidden_layers := nn_Linear 0 input_size h0
                                     :: hidden_to_hidden 1 (h0 :: rest);
                    output_layer := nn_Linear (length (h0 :: rest))
                                      (last (h0 :: rest) 0) output_size';
                    activation_fn := act; training := true |}).
  { destruct (String.eqb name "sigmoid");
      [|destruct (String.eqb name "tanh"); [|destruct (String.eqb name "linear")]];
      cbn [bind] in H; try discriminate; injection H as <-; eexists; reflexivity. }
  destruct Hm as [act ->]. clear H. cbn zeta.
  cbn [hidden_layers output_layer training].
  destruct (hidden_to_hidden_sizes (h0 :: rest) 1) as [Hin Hout].
  assert (Hlen : length (hidden_to_hidden 1 (h0 :: rest)) = length rest).
  { rewrite <- (length_map out_features), Hout. reflexivity. }
  split.
  { cbn [app length]. rewrite length_app, Hlen. cbn [length]. lia. }
  split.
  { cbn [app map]. rewrite map_app, Hin. cbn [map nn_Linear in_features].
    f_equal. symmetry. apply app_removelast_last. discriminate. }
  split.
  { cbn [app map]. rewrite map_app, Hout. reflexivity. }
  split; [|reflexivity].
  apply Forall_forall. intros l Hl.
  cbn [app] in Hl. destruct Hl as [<-|Hl]; [split; reflexivity|].
  apply in_app_or in Hl. destruct Hl as [Hl|[<-|[]]]; [|split; reflexivity].
  clear -Hl. revert Hl. generalize 1 (h0 :: rest). intros position sizes.
  revert position. induction sizes as [|a rest' IH]; intros position Hl; [destruct Hl|].
  destruct rest' as [|b rest']; [destruct Hl|].
  cbn [hidden_to_hidden] in Hl. destruct Hl as [<-|Hl]; [split; reflexivity|].
  exact (IH _ Hl).
Qed.

(** X2.  [FFNNModel.forward] returns one row per sample of the batch, each
    with as many values as the last layer has output features (given that a
    linear layer returns [out_features] values per sample). *)
Theorem forward_shape (m : FFNNModel) (x : Tensor) :
  (forall i o w r, length (Linear_row i o w r) = o) ->
  length (forward m x) = length x /\
  Forall (fun row => length row = out_features (output_layer m)) (forward m x).
Proof.
  intros Hrow. unfold forward. unfold layer_forward at 1. split.
  - now rewrite length_map, hidden_forward_length.
  - apply Forall_forall. intros row Hin.
    apply in_map_iff in Hin. destruct Hin as (r & <- & _). apply Hrow.
Qed.

(** X3.  The engine checks the history before the configuration: with
    [test_start >= lookback], a configuration without hidden sizes makes it
    raise [IndexError], and one with an unsupported activation or loss makes
    it raise [ValueError]; with [test_start < lookback] the same
    configuration gets the pair of empty arrays. *)
Theorem rolling_forecast_rejects_configuration (data_df : list frame_row)
  (lookback pred_len : nat) (cfg : Config) (fixed_test_set_size : Z) :
  valid_config cfg = false ->
  rolling_forecast_ffnn data_df lookback pred_len cfg fixed_test_set_size =
  if (Z.of_nat (length data_df) - fixed_test_set_size <? Z.of_nat lookback)%Z
  then Ok (Arrays [] [])
  else if length (hidden_sizes cfg) =? 0 then Raise IndexError
  else Raise ValueError.
Proof.
  intros Hinvalid.
  unfold rolling_forecast_ffnn, rolling_forecast_run. rewrite length_map.
  destruct (Z.ltb _ _); [reflexivity|].
  unfold valid_config in Hinvalid. unfold FFNNModel_init, get_criterion.
  destruct (hidden_sizes cfg) as [|h0 rest]; [reflexivity|].
  cbn [length Nat.eqb negb andb] in Hinvalid |- *.
  destruct (String.eqb (activation cfg) "sigmoid");
    [|destruct (String.eqb (activation cfg) "tanh");
      [|destruct (String.eqb (activation cfg) "linear"); [|reflexivity]]];
    cbn [orb andb bind] in Hinvalid |- *;
    (destruct (String.eqb (loss_type cfg) "SEL"); [discriminate|];
     destruct (String.eqb (loss_type cfg) "AEL"); [discriminate|reflexivity]).
Qed.






(** *** More on the stand-alone training *)





Lemma step_epochs_logged c mu loader : forall epochs_list st,
  let st' := fold_left (step_epoch c mu loader) epochs_list st in
  length (ss_log st') <= length (ss_log st) + length epochs_list /\
  (ss_stopped st' = false ->
   length (ss_log st') = length (ss_log st) + length epochs_list).
Proof.
  induction epochs_list as [|e rest IH]; intros st; cbn zeta.
  - cbn. split; lia.
  - cbn [fold_left length].
    destruct (IH (step_epoch c mu loader st e)) as [IH1 IH2].
    assert (Hstep : length (ss_log (step_epoch c mu loader st e)) <= length (ss_log st) + 1
                    /\ (ss_stopped (step_epoch c mu loader st e) = false ->
                        length (ss_log (step_epoch c mu loader st e))
                        = length (ss_log st) + 1)
                    /\ (ss_stopped st = true ->
                        ss_stopped (step_epoch c mu loader st e) = true)).
    { unfold step_epoch. destruct (ss_stopped st) eqn:Hs.
      - rewrite Hs. repeat split; try lia; discriminate.
      - destruct (step_batches _ _ _ _) as [[m l] n].
        destruct (scheduler_step _ _ _) as [sch rate].
        destruct (_ <? _)%float; cbn [ss_log ss_stopped]; rewrite length_app; cbn [length];
          repeat split; try lia; discriminate. }
    destruct Hstep as (H1 & H2 & H3).
    split; [lia|]. intros Hfinal. specialize (IH2 Hfinal).
    rewrite IH2. rewrite H2; [lia|].
    destruct (ss_stopped (step_epoch c mu loader st e)) eqn:Hmid; [|reflexivity].
    exfalso.
    assert (Hkeep : forall l s, ss_stopped s = true ->
                      ss_stopped (fold_left (step_epoch c mu loader) l s) = true).
    { induction l as [|x l IHl]; intros s Hs; [exact Hs|].
      cbn [fold_left]. apply IHl. unfold step_epoch. now rewrite Hs. }
    rewrite (Hkeep rest _ Hmid) in Hfinal. discriminate.
Qed.

(** X6.  The stand-alone training runs every epoch unless it stops early:
    it logs at most [epochs] losses, exactly [epochs] when it has not
    stopped; it stops exactly when 20 epochs in a row brought no loss below
    the best one, and then each of its last 20 logged losses is not below
    the best loss. *)
Theorem step_training_epochs c mu rate loader n m :
  let st := step_training c mu rate loader n m in
  length (ss_log st) <= n /\
  (ss_stopped st = false -> length (ss_log st) = n) /\
  (ss_stopped st = true <-> ss_patience_counter st = 20) /\
  ss_patience_counter st <= 20 /\
  ss_patience_counter st <= length (ss_log st) /\
  forallb (fun l => negb (l <? ss_best_loss st)%float)
          (skipn (length (ss_log st) - ss_patience_counter st) (ss_log st)) = true.
Proof.
  intros st.
  destruct (step_training_invariant c mu rate loader n m)
    as (_ & _ & Hlog & Hpat & Hstop & Hbad).
  fold st in Hlog, Hpat, Hstop, Hbad.
  destruct (step_epochs_logged c mu loader (seq 0 n)
              {| ss_model := set_training true m; ss_lr := rate;
                 ss_scheduler := ReduceLROnPlateau 0.5%float 10;
                 ss_best_loss := infinity; ss_patience_counter := 0;
                 ss_best_model_state := None; ss_stopped := false; ss_log := [] |})
    as [H1 H2].
  fold (step_training c mu rate loader n m) in H1, H2. fold st in H1, H2.
  cbn [ss_log length] in H1, H2. rewrite length_seq in H1, H2.
  repeat split; try assumption; try apply Hstop.
Qed.

(** X7.  The stand-alone function reads [ffnn_config['momentum']] without a
    default: any configuration without that key that the constructors accept
    makes it raise [KeyError], whatever the data. *)
Theorem train_and_predict_needs_momentum (data_df : list frame_row)
  (technical_columns : option (list column)) (lookback pred_len : nat) (cfg : Config) :
  valid_config cfg = true ->
  momentum cfg = None ->
  train_and_predict_ffnn_step data_df technical_columns lookback pred_len cfg =
  Raise KeyError.
Proof.
  intros Hvalid Hmu. unfold train_and_predict_ffnn_step.
  set (input_dim := match technical_columns with
                    | Some ((_ :: _) as columns) => lookback * (1 + length columns)
                    | _ => lookback
                    end).
  destruct (valid_config_accepted cfg input_dim Hvalid) as (m0 & c & Hm0 & Hc & _).
  rewrite Hm0, Hc, Hmu. reflexivity.
Qed.





End WithLibrary.

(** *** A small instance of the library

    A network whose weights are all fixed to 1 and whose biases are trained:
    a layer adds its bias to the sum of its inputs.  The loss gradients are
    the exact ones for this network, the optimiser is SGD with momentum and
    weight decay, the loader yields the whole training set as one batch in
    every epoch, and the scaler standardizes with the mean and the standard
    deviation summed from left to right.  [exp], [tanh] and the sigmoid are
    replaced by rational stand-ins. *)

Definition toy_sum (xs : list float) : float := fold_left PrimFloat.add xs 0%float.

Definition toy_mean (xs : list float) : float :=
  (toy_sum xs / Np.float_of_nat (length xs))%float.

Definition toy_Linear_row (i o : nat) (w : float) (x : list float) : list float :=
  repeat (w + toy_sum x)%float o.

Definition toy_output (layers : list (nat * nat * float)) (x : list float) : float :=
  hd 0%float
     (fold_left (fun x l => toy_Linear_row (fst (fst l)) (snd (fst l)) (snd l) x)
                layers x).

Definition toy_errors (out y : Tensor) : list float :=
  map (fun p => (hd 0 (fst p) - hd 0 (snd p))%float) (combine out y).

Definition toy_loss (c : Criterion) (out y : Tensor) : float :=
  match c with
  | MSELoss => toy_mean (map (fun e => (e * e)%float) (toy_errors out y))
  | L1Loss => toy_mean (map abs (toy_errors out y))
  end.

(** The derivative of the output in the bias of the layer at position [k]:
    the product of the widths of the layers from [k] to the last but one. *)
Definition toy_fan (layers : list (nat * nat * float)) (k : nat) : float :=
  fold_left (fun acc l => (acc * Np.float_of_nat (snd (fst l)))%float)
            (skipn k (removelast layers)) 1%float.

Definition toy_autograd (layers : list (nat * nat * float)) (a : Activation)
  (c : Criterion) (x y : Tensor) (k : nat) : float :=
  let e := toy_errors (map (fun r => [toy_output layers r]) x) y in
  let dloss :=
    match c with
    | MSELoss => toy_mean (map (fun e => (2 * e)%float) e)
    | L1Loss =>
        toy_mean (map (fun e => if (e <? 0)%float then (-1)%float
                                else if (0 <? e)%float then 1%float else 0%float) e)
    end in
  (dloss * toy_fan layers k)%float.

Definition toy_sgd (rate mu decay w g : float) (b : option float)
  : float * option float :=
  let g := (g + decay * w)%float in
  let b := match b with
           | None => g
           | Some b => (mu * b + g)%float
           end in
  ((w - rate * b)%float, Some b).

Definition toy_scaler_fit (xs : list float) : float * float :=
  let mu := toy_mean xs in
  let sd := sqrt (toy_mean (map (fun x => ((x - mu) * (x - mu))%float) xs)) in
  (mu, if (sd =? 0)%float then 1%float else sd).

(** Gradients scaled by [cap / (norm + 1e-6)] when their joint norm exceeds
    the cap. *)
Definition toy_clipped_grad (cap : float) (all : list float) (g : float) : float :=
  let norm := sqrt (toy_sum (map (fun x => (x * x)%float) all)) in
  if (cap <? norm)%float then (g * (cap / (norm + 1e-6)))%float else g.

(** The plateau rule: a loss below [best * (1 - 1e-4)] resets the count of
    bad epochs; more than [patience] bad epochs in a row multiply the rate
    by [factor]. *)
Definition toy_scheduler_step (s : float * nat * (float * nat)) (loss rate : float)
  : (float * nat * (float * nat)) * float :=
  let '(best, bad, (factor, patience)) := s in
  let better := (loss <? best * (1 - 1e-4))%float in
  let best := if better then loss else best in
  let bad := if better then 0 else S bad in
  if patience <? bad then ((best, 0, (factor, patience)), (rate * factor)%float)
  else ((best, bad, (factor, patience)), rate).

Definition toy : Library := {|
  Weights := float;
  Gradient := float;
  Buffer := float;
  init_weights := fun _ _ _ => 0.5%float;
  Linear_row := toy_Linear_row;
  sigmoid := fun x => (0.5 + 0.25 * x / (1 + abs (0.5 * x)))%float;
  tanh := fun x => (x / (1 + abs x))%float;
  criterion_loss := toy_loss;
  autograd := toy_autograd;
  grad_accumulate := PrimFloat.add;
  sgd_update := toy_sgd;
  clipped_grad := toy_clipped_grad;
  Scheduler := (float * nat * (float * nat))%type;
  ReduceLROnPlateau := fun factor patience => (infinity, 0, (factor, patience));
  scheduler_step := toy_scheduler_step;
  DataLoader := fun _ X y _ => [(X, y)];
  StandardScaler := (float * float)%type;
  scaler_fit := toy_scaler_fit;
  scaler_transform := fun s x => ((x - fst s) / snd s)%float;
  scaler_inverse_transform := fun s x => (x * snd s + fst s)%float;
  np_exp := fun x => (1 + x + x * x / 2 + x * x * x / 6)%float
|}.

Lemma toy_Linear_row_length :
  forall i o (w : @Weights toy) x, length (@Linear_row toy i o w x) = o.
Proof. intros i o w x. apply repeat_length. Qed.

Definition toy_row (price ret : float) : frame_row :=
  {| rate := price; log_return := ret; technical := fun _ => 0%float |}.

(** Eight days of prices with their log-returns. *)
Definition toy_frame : list frame_row :=
  [toy_row 100 0.01; toy_row 101 0.02; toy_row 102 (-0.01); toy_row 101 0.03;
   toy_row 103 0.01; toy_row 104 (-0.02); toy_row 102 0.01; toy_row 103 0.02]%float.

Definition toy_config (rate : float) (n_epochs : nat) : Config :=
  {| hidden_sizes := [2]; activation := "linear"; loss_type := "SEL";
     learning_rate := rate; momentum := None; epochs := n_epochs; batch_size := 32 |}.

Definition toy_run (rate : float) (n_epochs : nat) (T : Z) : result (@Run toy) :=
  @rolling_forecast_run toy toy_frame 2 1 (toy_config rate n_epochs) T.

(** A run on the toy frame: three test points give two forecast records. *)
Example toy_forecast_lengths :
  match @rolling_forecast_ffnn toy toy_frame 2 1 (toy_config 0.01 3) 3 with
  | Ok (Arrays t p) => (length t =? 2) && (length p =? 2) && forallb is_finite p
  | _ => false
  end = true.
Proof. vm_compute. reflexivity. Qed.





(** The last update of the toy run (at index 6) leaves a gradient of about
    -8.03 on the output bias; the loop ends with the biases phase 1 left,
    whereas one optimiser step on the stored gradients would have moved
    both. *)
Example online_update_is_not_applied :
  match toy_run 0.01 3 3 with
  | Ok run =>
      match trained_model run, last_model run with
      | Some trained, Some final =>
          (map (fun w => is_finite w) (parameters final) = [true; true]) /\
          parameters final = parameters trained /\
          option_map (fun g => (g <? 0)%float) (grad (output_layer final)) = Some true /\
          map (fun ww => (fst ww =? snd ww)%float)
              (combine (parameters (optimizer_step (engine_optimizer (toy_config 0.01 3)) final))
                       (parameters final)) = [false; false]
      | _, _ => False
      end
  | Raise _ => False
  end.
Proof. vm_compute. repeat split. Qed.


(** On one loader and a learning rate of 0 (the loss never moves), the
    stand-alone training stops after 21 of 40 epochs; the engine's phase 1
    runs all 40. *)
Example stand_alone_training_stops_early :
  match @FFNNModel_init toy 2 [2] 1 "linear" with
  | Ok m0 =>
      let loader := @engine_loader toy (map log_return toy_frame) 2 (toy_config 0 40) 5 in
      let st := @step_training toy MSELoss 0.9 0 loader 40 m0 in
      length (ss_log st) = 21 /\ ss_stopped st = true /\
      length (snd (@initial_training toy MSELoss (engine_optimizer (toy_config 0 40))
                     loader 40 m0)) = 40
  | Raise _ => False
  end.
Proof. vm_compute. repeat split. Qed.

(** [main] builds its configurations without a ['momentum'] key, which the
    stand-alone function reads unconditionally. *)
Example stand_alone_training_needs_momentum :
  @train_and_predict_ffnn_step toy toy_frame None 2 1 (toy_config 0.01 5)
  = Raise KeyError.
Proof. reflexivity. Qed.

(** A configuration with a momentum, as the stand-alone function needs. *)
Definition toy_momentum_config (rate : float) (n_epochs : nat) : Config :=
  {| hidden_sizes := [2]; activation := "linear"; loss_type := "SEL";
     learning_rate := rate; momentum := Some 0.9%float; epochs := n_epochs;
     batch_size := 32 |}.

(** A configuration with an activation the network does not know. *)
Definition toy_relu_config : Config :=
  {| hidden_sizes := [2]; activation := "relu"; loss_type := "SEL";
     learning_rate := 0.01; momentum := None; epochs := 3; batch_size := 32 |}.

Lemma FFNNModel_init_layers_witness :
  exists m,
    @FFNNModel_init toy 4 [8; 4] 1 "tanh" = Ok m /\
    map in_features (hidden_layers m ++ [output_layer m]) = [4; 8; 4] /\
    map out_features (hidden_layers m ++ [output_layer m]) = [8; 4; 1].
Proof.
  eexists. split; [vm_compute; reflexivity|].
  refine (let H := @FFNNModel_init_layers toy 4 [8; 4] 1 "tanh" _ _ in
          conj (proj1 (proj2 H)) (proj1 (proj2 (proj2 H)))).
  vm_compute. reflexivity.
Defined.

Lemma forward_shape_witness :
  exists m,
    @FFNNModel_init toy 2 [2] 1 "linear" = Ok m /\
    length (forward m [[1; 2]; [3; 4]; [5; 6]]%float) = 3.
Proof.
  eexists. split; [vm_compute; reflexivity|].
  exact (proj1 (@forward_shape toy _ _ toy_Linear_row_length)).
Defined.

Lemma rolling_forecast_rejects_configuration_witness :
  @rolling_forecast_ffnn toy toy_frame 2 1 toy_relu_config 3 = Raise ValueError /\
  @rolling_forecast_ffnn toy toy_frame 2 1 toy_relu_config 7 = Ok (Arrays [] []).
Proof.
  split.
  - exact (@rolling_forecast_rejects_configuration toy toy_frame 2 1 toy_relu_config 3
             eq_refl).
  - exact (@rolling_forecast_rejects_configuration toy toy_frame 2 1 toy_relu_config 7
             eq_refl).
Defined.



Lemma train_and_predict_needs_momentum_witness :
  @train_and_predict_ffnn_step toy toy_frame None 2 1 (toy_config 0.01 5) = Raise KeyError.
Proof.
  exact (@train_and_predict_needs_momentum toy toy_frame None 2 1 (toy_config 0.01 5)
           eq_refl eq_refl).
Defined.



(** The stand-alone function on the toy frame: one finite value. *)
Example stand_alone_prediction_is_finite :
  match @train_and_predict_ffnn_step toy toy_frame None 2 1 (toy_momentum_config 0.01 5)
  with
  | Ok [v] => is_finite v
  | _ => false
  end = true.
Proof. vm_compute. reflexivity. Qed.

End Engine.


(** ** The grid-search driver: the loop body of [main] *)

Module Driver.

Import SequenceBuilder Engine Evaluator.

(** One cell of the grid: the lookback with the keys the engine reads. *)
Record grid_config : Type := {
  lookback : nat;
  ffnn : Config
}.

(** What a name bound by [true_prices, pred_prices = ...] can hold. *)
Inductive value : Type :=
| Array (a : list float)
| Scalar (x : float).

(** Unpacking the engine's return value into two names: a pair binds its
    two arrays; a single array binds its entries when it has exactly two of
    them and raises otherwise. *)
Definition unpack_pair (f : forecast) : result (value * value) :=
  match f with
  | Arrays t p => Ok (Array t, Array p)
  | Zeros [a; b] => Ok (Scalar a, Scalar b)
  | Zeros _ => Raise ValueError
  end.

(** The array a name holds, as [len] needs it. *)
Definition as_array (v : value) : result (list float) :=
  match v with
  | Array a => Ok a
  | Scalar _ => Raise TypeError
  end.

(** The entry recorded for a configuration (lines 710-716 and 736-742). *)
Record run_data : Type := {
  metrics : Metrics;
  true_values : list float;
  predictions : list float;
  config : grid_config
}.

Section WithLibraries.

Context {lib : Library}.
Variable mean_squared_error : list float -> list float -> result float.
Variable mean_absolute_error : list float -> list float -> result float.
Variable r2_score : list float -> list float -> result float.
Variable np_mean : list float -> float.

Definition evaluate : list float -> list float -> result Metrics :=
  evaluate_model mean_squared_error mean_absolute_error r2_score np_mean.

(** Lines 690-742: one configuration of the grid. *)
Definition run_configuration (data_df : list frame_row) (pred_len : nat)
  (fixed_test_set_size : Z) (g : grid_config) : result run_data :=
  out <- rolling_forecast_ffnn data_df (lookback g) pred_len (ffnn g)
           fixed_test_set_size ;;
  '(true_prices, pred_prices) <- unpack_pair out ;;
  t <- as_array true_prices ;;
  p <- as_array pred_prices ;;
  if (0 <? length t) && (0 <? length p) && (length t =? length p) then
    eval_metrics <- evaluate t p ;;
    Ok {| metrics := eval_metrics; true_values := t; predictions := p; config := g |}
  else
    eval_metrics <- evaluate [] [] ;;
    Ok {| metrics := eval_metrics; true_values := []; predictions := []; config := g |}.





(** ** [main]: the grid, the loop over it and the summary *)

(** *** The grid of lines 621-664 *)

Definition hidden_sizes_options : list (list nat) := [[8]; [16]; [8; 4]; [16; 8]].
Definition loss_types : list string := ["SEL"%string].
Definition activation_types : list string := ["tanh"%string].
Definition lookbacks : list nat := [20; 40; 60].
Definition learning_rates : list float := [0.001; 0.005; 0.01]%float.
Definition epochs_list : list nat := [100; 200].
Definition batch_sizes : list nat := [32].

(** The dictionaries appended for one lookback, in the order of the nested
    loops of lines 654-664; they have no ['momentum'] key. *)
Definition lookback_configurations (lb : nat) : list grid_config :=
  flat_map (fun hs =>
  flat_map (fun lt =>
  flat_map (fun at_ =>
  flat_map (fun lr =>
  flat_map (fun ep =>
  map (fun bs =>
         {| lookback := lb;
            ffnn := {| hidden_sizes := hs; activation := at_; loss_type := lt;
                       learning_rate := lr; momentum := None; epochs := ep;
                       batch_size := bs |} |})
      batch_sizes) epochs_list) learning_rates) activation_types) loss_types)
  hidden_sizes_options.

(** Lines 650-664: a lookback is skipped when the first window has fewer
    than [lb + 1] training points. *)
Definition ffnn_configurations (num_train_points_for_first_window : Z)
  : list grid_config :=
  flat_map (fun lb =>
              if (num_train_points_for_first_window <? Z.of_nat lb + 1)%Z then []
              else lookback_configurations lb)
           lookbacks.

(** The lookbacks that are not skipped. *)
Definition feasible_lookbacks (num_train_points_for_first_window : Z) : list nat :=
  filter (fun lb => negb (num_train_points_for_first_window <? Z.of_nat lb + 1)%Z)
         lookbacks.

(** *** Labels and the dictionary of results *)

(** Line 681: the label is an f-string of the lookback, the FIRST hidden
    size, the loss, the activation, the learning rate, the epochs and the
    batch size, each after its own tag.  The label is kept as the tuple of
    these fields: equal tuples print the same string, and for loss and
    activation names without an underscore (all the names the constructors
    accept) distinct tuples print distinct strings; a binary64 value prints
    the same exactly when it is the same value. *)
Definition label : Type := (nat * nat * string * string * float * nat * nat)%type.

Definition config_label (g : grid_config) : result label :=
  first_hidden <- Np.py_index (hidden_sizes (ffnn g)) 0 ;;
  Ok (lookback g, first_hidden, loss_type (ffnn g), activation (ffnn g),
      learning_rate (ffnn g), epochs (ffnn g), batch_size (ffnn g)).

Definition label_eqb (a b : label) : bool :=
  let '(lb, hs, lt, at_, lr, ep, bs) := a in
  let '(lb', hs', lt', at', lr', ep', bs') := b in
  Nat.eqb lb lb' && Nat.eqb hs hs' && String.eqb lt lt' && String.eqb at_ at'
  && PrimFloat.Leibniz.eqb lr lr' && Nat.eqb ep ep' && Nat.eqb bs bs'.

(** [d[k] = v] on a dictionary kept in insertion order: an existing key
    keeps its place and takes the new value, a new key goes last. *)
Definition dict_set {V : Type} (d : list (label * V)) (k : label) (v : V)
  : list (label * V) :=
  if existsb (fun e => label_eqb (fst e) k) d
  then map (fun e => if label_eqb (fst e) k then (fst e, v) else e) d
  else d ++ [(k, v)].

(** [best_ffnn_metrics] (line 668). *)
Record best_entry : Type := {
  best_RMSE : float;
  best_config_label : option label;
  best_metrics : option Metrics;
  best_config_details : option grid_config
}.

Definition best_start : best_entry :=
  {| best_RMSE := infinity; best_config_label := None; best_metrics := None;
     best_config_details := None |}.

(** Lines 727-733. *)
Definition update_best (best : best_entry) (config_label : label)
  (eval_metrics : Metrics) (g : grid_config) : best_entry :=
  if negb (is_nan (RMSE eval_metrics)) && (RMSE eval_metrics <? best_RMSE best)%float
  then {| best_RMSE := RMSE eval_metrics; best_config_label := Some config_label;
          best_metrics := Some eval_metrics; best_config_details := Some g |}
  else best.

(** Line 751: whether the final report names a best configuration. *)
Definition reports_best (best : best_entry) : bool :=
  match best_metrics best with
  | Some _ =>
      negb (is_nan (best_RMSE best)) && negb (best_RMSE best =? infinity)%float
  | None => false
  end.

Record main_state : Type := {
  all_ffnn_run_results : list (label * run_data);
  best_ffnn_metrics : best_entry
}.

Definition main_start : main_state :=
  {| all_ffnn_run_results := []; best_ffnn_metrics := best_start |}.

(** Lines 679-742: the body of the loop with the two dictionaries it
    updates (printing, pickling and plotting left out). *)
Definition main_body (data_df : list frame_row) (pred_len : nat)
  (fixed_test_set_size : Z) (st : main_state) (g : grid_config) : result main_state :=
  config_label <- config_label g ;;
  out <- rolling_forecast_ffnn data_df (lookback g) pred_len (ffnn g)
           fixed_test_set_size ;;
  '(true_prices, pred_prices) <- unpack_pair out ;;
  t <- as_array true_prices ;;
  p <- as_array pred_prices ;;
  if (0 <? length t) && (0 <? length p) && (length t =? length p) then
    eval_metrics <- evaluate t p ;;
    let current_run_data :=
      {| metrics := eval_metrics; true_values := t; predictions := p; config := g |} in
    Ok {| all_ffnn_run_results :=
            dict_set (all_ffnn_run_results st) config_label current_run_data;
          best_ffnn_metrics :=
            update_best (best_ffnn_metrics st) config_label eval_metrics g |}
  else
    eval_metrics <- evaluate [] [] ;;
    Ok {| all_ffnn_run_results :=
            dict_set (all_ffnn_run_results st) config_label
              {| metrics := eval_metrics; true_values := []; predictions := [];
                 config := g |};
          best_ffnn_metrics := best_ffnn_metrics st |}.

(** [main] from the loaded frame on, with [pred_len = 1]: [None] when it
    returns before the loop (lines 635-637 and 666-668). *)
Definition main (data_df : list frame_row) (fixed_test_set_size : Z)
  : result (option main_state) :=
  let pred_len := 1 in
  if (Z.of_nat (length data_df) <=? fixed_test_set_size + Z.of_nat pred_len)%Z
  then Ok None
  else
    let num_total_points := Z.of_nat (length data_df) in
    let num_train_points_for_first_window :=
      (num_total_points - fixed_test_set_size)%Z in
    let ffnn_configurations := ffnn_configurations num_train_points_for_first_window in
    if length ffnn_configurations =? 0 then Ok None
    else
      st <- for_each (main_body data_df pred_len fixed_test_set_size)
              ffnn_configurations main_start ;;
      Ok (Some st).

(** *** The summary table *)

(** Line 586: the MAPE cell is the value with four decimals and a percent
    sign, ['inf%'] or ['nan']. *)
Inductive mape_cell : Type :=
| Percent (mape_val : float)
| InfPercent
| NanText.

Definition summary_mape_cell (mape_val : float) : mape_cell :=
  if negb (is_nan mape_val) && Np.isfinite mape_val then Percent mape_val
  else if (mape_val =? infinity)%float then InfPercent
  else NanText.

(** *** Order of binary64 values *)

Lemma SFltb_trans x y z :
  SpecFloat.SFltb x y = true -> SpecFloat.SFltb y z = true -> SpecFloat.SFltb x z = true.
Proof.
  unfold SpecFloat.SFltb.
  destruct x as [sx|sx| |sx mx ex], y as [sy|sy| |sy my ey], z as [sz|sz| |sz mz ez];
    cbn; try discriminate; try reflexivity;
    try (destruct sx); try (destruct sy); try (destruct sz);
    cbn; try discriminate; try reflexivity;
    change (Pos.compare_cont Eq) with Pos.compare;
    destruct (Z.compare_spec ex ey), (Z.compare_spec ey ez), (Z.compare_spec ex ez);
    try discriminate; try reflexivity; try lia; subst;
    destruct (Pos.compare_spec mx my), (Pos.compare_spec my mz), (Pos.compare_spec mx mz);
    cbn; try discriminate; try reflexivity; try lia.
Qed.

Lemma ltb_trans (x y z : float) :
  (x <? y)%float = true -> (y <? z)%float = true -> (x <? z)%float = true.
Proof. rewrite !FloatAxioms.ltb_spec. apply SFltb_trans. Qed.

Lemma infinity_not_below (x : float) : (infinity <? x)%float = false.
Proof.
  rewrite FloatAxioms.ltb_spec.
  change (FloatOps.Prim2SF infinity) with (SpecFloat.S754_infinity false).
  unfold SpecFloat.SFltb.
  destruct (FloatOps.Prim2SF x) as [s|s| |s m e]; try reflexivity; destruct s; reflexivity.
Qed.

Lemma below_not_nan (x y : float) : (x <? y)%float = true -> is_nan x = false.
Proof.
  rewrite FloatAxioms.ltb_spec. unfold is_nan. rewrite FloatAxioms.eqb_spec.
  unfold SpecFloat.SFltb, SpecFloat.SFeqb.
  destruct (FloatOps.Prim2SF x) as [s|s| |s m e]; cbn; try discriminate; try reflexivity;
    destruct s; try reflexivity; intros _;
    change (Pos.compare_cont Eq) with Pos.compare;
    now rewrite Z.compare_refl, Pos.compare_refl.
Qed.

Lemma below_not_equal (x y : float) : (x <? y)%float = true -> (x =? y)%float = false.
Proof.
  rewrite FloatAxioms.ltb_spec, FloatAxioms.eqb_spec.
  unfold SpecFloat.SFltb, SpecFloat.SFeqb.
  destruct (SpecFloat.SFcompare _ _) as [[| |]|]; try discriminate; reflexivity.
Qed.

(** *** The grid *)

Lemma in_lookback_configurations lb g :
  In g (lookback_configurations lb) ->
  lookback g = lb /\ In (ffnn g) (map ffnn (lookback_configurations 0)).
Proof.
  change (lookback_configurations lb)
    with (map (fun c => {| lookback := lb; ffnn := c |})
              (map ffnn (lookback_configurations 0))).
  intros H. apply in_map_iff in H. destruct H as (c & <- & Hc).
  split; [reflexivity|exact Hc].
Qed.

Lemma in_ffnn_configurations n g :
  In g (ffnn_configurations n) <->
  In (lookback g) lookbacks /\ (Z.of_nat (lookback g) + 1 <= n)%Z /\
  In g (lookback_configurations (lookback g)).
Proof.
  unfold ffnn_configurations. rewrite in_flat_map. split.
  - intros (lb & Hlb & Hg).
    destruct (Z.ltb_spec n (Z.of_nat lb + 1)) as [|Hn]; [destruct Hg|].
    destruct (in_lookback_configurations lb g Hg) as [-> _].
    repeat split; assumption.
  - intros (Hlb & Hn & Hg). exists (lookback g). split; [exact Hlb|].
    destruct (Z.ltb_spec n (Z.of_nat (lookback g) + 1)); [lia|exact Hg].
Qed.

Lemma ffnn_configurations_grid_size (n : Z) :
  length (ffnn_configurations n) = 24 * length (feasible_lookbacks n).
Proof.
  unfold ffnn_configurations, feasible_lookbacks, lookbacks.
  cbn [flat_map filter].
  destruct (n <? Z.of_nat 20 + 1)%Z, (n <? Z.of_nat 40 + 1)%Z, (n <? Z.of_nat 60 + 1)%Z;
    reflexivity.
Qed.

Lemma grid_configuration_valid n g :
  In g (ffnn_configurations n) ->
  (Z.of_nat (lookback g) + 1 <= n)%Z /\ valid_config (ffnn g) = true /\
  momentum (ffnn g) = None.
Proof.
  intros Hg. apply in_ffnn_configurations in Hg. destruct Hg as (Hlb & Hn & Hg).
  split; [exact Hn|].
  apply in_lookback_configurations in Hg. destruct Hg as [_ Hg].
  assert (Hall : forallb (fun c => valid_config c
                          && match momentum c with None => true | Some _ => false end)
                   (map ffnn (lookback_configurations 0)) = true)
    by (vm_compute; reflexivity).
  rewrite forallb_forall in Hall. specialize (Hall _ Hg).
  apply andb_true_iff in Hall. destruct Hall as [Hv Hm].
  split; [exact Hv|]. now destruct (momentum (ffnn g)).
Qed.

(** X11.  Every configuration of the grid has a lookback among 20, 40, 60
    with at least [lookback + 1] training points before the test window, a
    network, activation and loss the constructors accept, and no momentum
    key; each lookback that is not skipped contributes 24 configurations. *)
Theorem ffnn_configurations_feasible (num_train_points_for_first_window : Z) :
  Forall (fun g =>
            In (lookback g) lookbacks /\
            (Z.of_nat (lookback g) + 1 <= num_train_points_for_first_window)%Z /\
            valid_config (ffnn g) = true /\
            momentum (ffnn g) = None)
         (ffnn_configurations num_train_points_for_first_window) /\
  length (ffnn_configurations num_train_points_for_first_window) =
  24 * length (feasible_lookbacks num_train_points_for_first_window).
Proof.
  split; [|apply ffnn_configurations_grid_size].
  apply Forall_forall. intros g Hg. split.
  - apply in_ffnn_configurations in Hg. tauto.
  - exact (grid_configuration_valid _ _ Hg).
Qed.

Lemma evaluate_empty : evaluate [] [] = Ok worst_metrics.
Proof. reflexivity. Qed.

(** The loop body records what [run_configuration] returns. *)
Lemma main_body_entry data_df pred_len fixed_test_set_size st g st' :
  main_body data_df pred_len fixed_test_set_size st g = Ok st' ->
  exists k r,
    config_label g = Ok k /\
    run_configuration data_df pred_len fixed_test_set_size g = Ok r /\
    config r = g /\
    all_ffnn_run_results st' = dict_set (all_ffnn_run_results st) k r /\
    best_ffnn_metrics st' = update_best (best_ffnn_metrics st) k (metrics r) g.
Proof.
  unfold main_body, run_configuration.
  destruct (config_label g) as [k|e]; cbn [bind]; [|discriminate].
  destruct (rolling_forecast_ffnn _ _ _ _ _) as [out|e]; cbn [bind]; [|discriminate].
  destruct (unpack_pair out) as [[tv pv]|e]; cbn [bind]; [|discriminate].
  destruct (as_array tv) as [t|e]; cbn [bind]; [|discriminate].
  destruct (as_array pv) as [p|e]; cbn [bind]; [|discriminate].
  destruct ((0 <? length t) && (0 <? length p) && (length t =? length p)).
  - destruct (evaluate t p) as [m|e]; cbn [bind]; [|discriminate].
    intros [= <-]. eexists _, _. repeat split.
  - rewrite evaluate_empty. cbn [bind]. intros [= <-].
    eexists _, _. repeat split. cbn [all_ffnn_run_results best_ffnn_metrics metrics].
    unfold update_best. cbn [worst_metrics RMSE].
    now rewrite infinity_not_below, andb_false_r.
Qed.

Lemma for_each_prefix_invariant {S X : Type} (body : S -> X -> result S)
  (Q : list X -> S -> Prop) :
  (forall pre x s s', Q pre s -> body s x = Ok s' -> Q (pre ++ [x]) s') ->
  forall xs pre s s', Q pre s -> for_each body xs s = Ok s' -> Q (pre ++ xs) s'.
Proof.
  intros Hstep. induction xs as [|x xs IH]; intros pre s s' HQ Hrun.
  - cbn in Hrun. injection Hrun as <-. now rewrite app_nil_r.
  - cbn [for_each] in Hrun.
    destruct (body s x) as [s1|e] eqn:Hb; cbn [bind] in Hrun; [|discriminate].
    replace (pre ++ x :: xs) with ((pre ++ [x]) ++ xs)
      by (now rewrite <- app_assoc).
    eapply IH; [|exact Hrun]. eapply Hstep; eassumption.
Qed.

(** What the loop has established about [best_ffnn_metrics] after the
    configurations [pre]. *)
Definition best_of (data_df : list frame_row) (pred_len : nat) (fixed_test_set_size : Z)
  (pre : list grid_config) (best : best_entry) : Prop :=
  (forall g r, In g pre ->
     run_configuration data_df pred_len fixed_test_set_size g = Ok r ->
     (RMSE (metrics r) <? best_RMSE best)%float = false) /\
  (best = best_start \/
   exists g r k,
     In g pre /\
     run_configuration data_df pred_len fixed_test_set_size g = Ok r /\
     config_label g = Ok k /\
     (RMSE (metrics r) <? infinity)%float = true /\
     best = {| best_RMSE := RMSE (metrics r); best_config_label := Some k;
               best_metrics := Some (metrics r); best_config_details := Some g |}).

Lemma best_of_step data_df pred_len fixed_test_set_size pre g st st' :
  best_of data_df pred_len fixed_test_set_size pre (best_ffnn_metrics st) ->
  main_body data_df pred_len fixed_test_set_size st g = Ok st' ->
  best_of data_df pred_len fixed_test_set_size (pre ++ [g]) (best_ffnn_metrics st').
Proof.
  intros [Hmin Hbest] Hbody.
  destruct (main_body_entry _ _ _ _ _ _ Hbody) as (k & r & Hk & Hr & _ & _ & Hnew).
  rewrite Hnew. unfold update_best.
  destruct (negb (is_nan (RMSE (metrics r))) && (RMSE (metrics r) <? _)%float) eqn:Htest.
  - apply andb_true_iff in Htest. destruct Htest as [_ Hlt].
    split.
    + cbn [best_RMSE]. intros g' r' Hin Hr'.
      apply in_app_or in Hin. destruct Hin as [Hin|[<-|[]]].
      * specialize (Hmin g' r' Hin Hr').
        destruct (RMSE (metrics r') <? RMSE (metrics r))%float eqn:Hcmp; [|reflexivity].
        now rewrite (ltb_trans _ _ _ Hcmp Hlt) in Hmin.
      * rewrite Hr in Hr'. injection Hr' as <-.
        destruct (RMSE (metrics r) <? RMSE (metrics r))%float eqn:Hcmp; [|reflexivity].
        exfalso. pose proof (ltb_trans _ _ _ Hcmp Hcmp) as Hself.
        revert Hcmp. rewrite FloatAxioms.ltb_spec. unfold SpecFloat.SFltb.
        destruct (FloatOps.Prim2SF (RMSE (metrics r))) as [s|s| |s m e]; cbn;
          try discriminate; destruct s; try discriminate;
          change (Pos.compare_cont Eq) with Pos.compare;
          now rewrite Z.compare_refl, Pos.compare_refl.
    + right. exists g, r, k. repeat split; try assumption.
      * apply in_or_app. right. now left.
      * destruct Hbest as [Hb|(g0 & r0 & k0 & _ & _ & _ & Hinf & Hb)];
          rewrite Hb in Hlt.
        -- exact Hlt.
        -- cbn [best_RMSE] in Hlt. exact (ltb_trans _ _ _ Hlt Hinf).
  - split.
    + intros g' r' Hin Hr'.
      apply in_app_or in Hin. destruct Hin as [Hin|[<-|[]]];
        [exact (Hmin g' r' Hin Hr')|].
      rewrite Hr in Hr'. injection Hr' as <-.
      apply andb_false_iff in Htest. destruct Htest as [Hnan|Hlt]; [|exact Hlt].
      destruct (RMSE (metrics r) <? _)%float eqn:Hcmp; [|reflexivity].
      apply below_not_nan in Hcmp. rewrite Hcmp in Hnan. discriminate.
    + destruct Hbest as [Hb|(g0 & r0 & k0 & Hin & H)]; [now left|].
      right. exists g0, r0, k0. split; [|exact H]. apply in_or_app. now left.
Qed.

Lemma main_loop_best (data_df : list frame_row) (pred_len : nat)
  (fixed_test_set_size : Z) (configurations : list grid_config) (st : main_state) :
  for_each (main_body data_df pred_len fixed_test_set_size) configurations main_start
    = Ok st ->
  best_of data_df pred_len fixed_test_set_size configurations (best_ffnn_metrics st).
Proof.
  intros Hrun.
  apply (for_each_prefix_invariant (main_body data_df pred_len fixed_test_set_size)
           (fun pre s => best_of data_df pred_len fixed_test_set_size pre
                           (best_ffnn_metrics s))
           (fun pre x s s' => best_of_step data_df pred_len fixed_test_set_size pre x s s')
           configurations [] main_start st); [|exact Hrun].
  split; [intros g r []|now left].
Qed.

(** X12.  When the loop of [main] ends, no configuration it went through
    has an RMSE strictly below the recorded best one (a NaN compares below
    nothing), and the best entry is either untouched (RMSE [inf], no label)
    or the label, metrics and dictionary of one configuration of the list
    whose RMSE is below [inf]. *)
Theorem best_is_minimal (data_df : list frame_row) (pred_len : nat)
  (fixed_test_set_size : Z) (configurations : list grid_config) (st : main_state) :
  for_each (main_body data_df pred_len fixed_test_set_size) configurations main_start
    = Ok st ->
  (forall g r, In g configurations ->
     run_configuration data_df pred_len fixed_test_set_size g = Ok r ->
     (RMSE (metrics r) <? best_RMSE (best_ffnn_metrics st))%float = false) /\
  (best_ffnn_metrics st = best_start \/
   exists g r k,
     In g configurations /\
     run_configuration data_df pred_len fixed_test_set_size g = Ok r /\
     config_label g = Ok k /\
     (RMSE (metrics r) <? infinity)%float = true /\
     best_ffnn_metrics st =
       {| best_RMSE := RMSE (metrics r); best_config_label := Some k;
          best_metrics := Some (metrics r); best_config_details := Some g |}).
Proof.
  intros Hrun.
  destruct (main_loop_best data_df pred_len fixed_test_set_size configurations st Hrun)
    as [Hmin Hbest].
  split; [exact Hmin|exact Hbest].
Qed.

(** X18.  The final report names a best configuration exactly when some
    configuration of the list has an RMSE below [inf]; otherwise it prints
    the failure message. *)
Theorem main_reports_best (data_df : list frame_row) (pred_len : nat)
  (fixed_test_set_size : Z) (configurations : list grid_config) (st : main_state) :
  for_each (main_body data_df pred_len fixed_test_set_size) configurations main_start
    = Ok st ->
  (reports_best (best_ffnn_metrics st) = true <->
   exists g r,
     In g configurations /\
     run_configuration data_df pred_len fixed_test_set_size g = Ok r /\
     (RMSE (metrics r) <? infinity)%float = true).
Proof.
  intros Hrun.
  destruct (main_loop_best data_df pred_len fixed_test_set_size configurations st Hrun)
    as [Hmin Hbest].
  split.
  - intros Hreport.
    destruct Hbest as [Hb|(g & r & k & Hin & Hr & _ & Hinf & _)].
    + rewrite Hb in Hreport. discriminate.
    + exists g, r. repeat split; assumption.
  - intros (g & r & Hin & Hr & Hinf).
    destruct Hbest as [Hb|(g0 & r0 & k0 & _ & _ & _ & Hinf0 & Hb)].
    + specialize (Hmin g r Hin Hr). rewrite Hb in Hmin. cbn [best_start best_RMSE] in Hmin.
      rewrite Hinf in Hmin. discriminate.
    + rewrite Hb. unfold reports_best. cbn [best_metrics best_RMSE].
      now rewrite (below_not_nan _ _ Hinf0), (below_not_equal _ _ Hinf0).
Qed.

(** *** Labels that collide *)

Definition entry_config (e : label * run_data) : label * grid_config :=
  (fst e, config (snd e)).

(** The keys of the dictionary with the configuration each one ends up
    with. *)
Definition record_configs (d : list (label * grid_config)) (g : grid_config)
  : result (list (label * grid_config)) :=
  k <- config_label g ;; Ok (dict_set d k g).

Lemma dict_set_entry_config d k r :
  map entry_config (dict_set d k r) = dict_set (map entry_config d) k (config r).
Proof.
  unfold dict_set.
  assert (Hex : existsb (fun e : label * grid_config => label_eqb (fst e) k)
                        (map entry_config d)
                = existsb (fun e : label * run_data => label_eqb (fst e) k) d).
  { induction d as [|e d IH]; [reflexivity|]. cbn [map existsb]. now rewrite IH. }
  rewrite Hex. destruct (existsb _ d).
  - rewrite !map_map. apply map_ext. intros [k' r']. cbn [fst snd entry_config].
    now destruct (label_eqb k' k).
  - now rewrite map_app.
Qed.

Lemma main_loop_configs data_df pred_len fixed_test_set_size : forall configurations st st',
  for_each (main_body data_df pred_len fixed_test_set_size) configurations st = Ok st' ->
  for_each record_configs configurations (map entry_config (all_ffnn_run_results st))
  = Ok (map entry_config (all_ffnn_run_results st')).
Proof.
  induction configurations as [|g rest IH]; intros st st' Hrun.
  - cbn in Hrun |- *. now injection Hrun as <-.
  - cbn [for_each] in Hrun |- *.
    destruct (main_body data_df pred_len fixed_test_set_size st g) as [s1|e] eqn:Hb;
      cbn [bind] in Hrun; [|discriminate].
    destruct (main_body_entry _ _ _ _ _ _ Hb) as (k & r & Hk & _ & Hc & Hall & _).
    unfold record_configs at 1. rewrite Hk. cbn [bind].
    replace (dict_set (map entry_config (all_ffnn_run_results st)) k g)
      with (map entry_config (all_ffnn_run_results s1))
      by (now rewrite Hall, dict_set_entry_config, Hc).
    now apply IH.
Qed.

Lemma grid_records (n : Z) :
  exists d,
    for_each record_configs (ffnn_configurations n) [] = Ok d /\
    forallb (fun e => length (hidden_sizes (ffnn (snd e))) =? 2) d = true /\
    length d = 12 * length (feasible_lookbacks n).
Proof.
  unfold ffnn_configurations, feasible_lookbacks, lookbacks.
  cbn [flat_map filter].
  destruct (n <? Z.of_nat 20 + 1)%Z, (n <? Z.of_nat 40 + 1)%Z, (n <? Z.of_nat 60 + 1)%Z;
    cbn [negb app];
    eexists; (split; [vm_compute; reflexivity|split; vm_compute; reflexivity]).
Qed.

(** X13.  The label names only the first hidden size, so [8] and [8, 4]
    (and [16] and [16, 8]) share their labels and the later run overwrites
    the earlier one in [all_ffnn_run_results]: when the loop over the grid
    ends, the dictionary holds 12 entries for each lookback that was run,
    out of 24 configurations, and every entry is the run of a network with
    two hidden layers. *)
Theorem results_keep_two_layer_runs (data_df : list frame_row) (pred_len : nat)
  (fixed_test_set_size : Z) (n : Z) (st : main_state) :
  for_each (main_body data_df pred_len fixed_test_set_size) (ffnn_configurations n)
    main_start = Ok st ->
  length (ffnn_configurations n) = 24 * length (feasible_lookbacks n) /\
  length (all_ffnn_run_results st) = 12 * length (feasible_lookbacks n) /\
  Forall (fun e => length (hidden_sizes (ffnn (config (snd e)))) = 2)
         (all_ffnn_run_results st).
Proof.
  intros Hrun.
  split; [apply ffnn_configurations_grid_size|].
  pose proof (main_loop_configs _ _ _ _ _ _ Hrun) as Hkeys. cbn [main_start
    all_ffnn_run_results map] in Hkeys.
  destruct (grid_records n) as (d & Hd & Htwo & Hlen).
  rewrite Hd in Hkeys. injection Hkeys as ->.
  rewrite length_map in Hlen. split; [exact Hlen|].
  rewrite forallb_forall in Htwo.
  apply Forall_forall. intros e He.
  specialize (Htwo (entry_config e) (in_map entry_config _ _ He)).
  now apply Nat.eqb_eq in Htwo.
Qed.

(** *** The grid against the engine *)








(** *** The summary table against the evaluator *)

(** X16.  The MAPE cell of the summary table is never ['nan'] for metrics
    that [evaluate_model] returned: it is the formatted value when the MAPE
    is finite and ['inf%'] otherwise. *)
Theorem summary_mape_cell_of_evaluation (y_true y_pred : list float) (m : Metrics) :
  evaluate y_true y_pred = Ok m ->
  summary_mape_cell (MAPE m) =
  if is_finite (MAPE m) then Percent (MAPE m) else InfPercent.
Proof.
  unfold evaluate, evaluate_model.
  destruct ((length y_true =? 0) || (length y_pred =? 0)
            || negb (length y_true =? length y_pred)).
  - intros [= <-]. reflexivity.
  - destruct (substitute_non_finite _ _ _) as [y_pred'|e]; cbn [bind]; [|discriminate].
    unfold standard_metrics.
    destruct (mean_squared_error _ _) as [mse|e]; cbn [bind]; [|discriminate].
    destruct (mean_absolute_error _ _) as [mae|e]; cbn [bind]; [|discriminate].
    destruct (r2_score _ _) as [r2|e]; cbn [bind]; [|discriminate].
    intros [= <-]. cbn [MAPE].
    destruct (mape_of_not_nan np_mean y_true y_pred') as [Hnan [Hfin|Hinf]].
    + unfold summary_mape_cell, Np.isfinite. now rewrite Hnan, Hfin.
    + rewrite Hinf. reflexivity.
Qed.

End WithLibraries.

(** The driver on the toy network with the reference metrics. *)
Definition toy_run_configuration : list frame_row -> nat -> Z -> grid_config ->
                                   result run_data :=
  @run_configuration toy ref_mean_squared_error ref_mean_absolute_error ref_r2_score
    ref_mean.

Definition toy_grid_config : grid_config :=
  {| lookback := 2; ffnn := toy_config 0.01 3 |}.




(** A feasible configuration goes through the body: two records, finite
    metrics. *)
Example toy_configuration_evaluated :
  match toy_run_configuration toy_frame 1 3 toy_grid_config with
  | Ok entry =>
      (length (true_values entry) =? 2) && (length (predictions entry) =? 2)
      && is_finite (RMSE (metrics entry)) && is_finite (MAPE (metrics entry))
  | Raise _ => false
  end = true.
Proof. vm_compute. reflexivity. Qed.

(** A frame of 24 days, long enough for the lookback 20 of the grid. *)
Definition toy_long_frame : list frame_row :=
  map (fun k => toy_row (100 + Np.float_of_nat k)
                        (if Nat.even k then 0.01 else (-0.005))%float)
      (seq 0 24).

Definition toy_main_body : list frame_row -> nat -> Z -> main_state -> grid_config ->
                           result main_state :=
  @main_body toy ref_mean_squared_error ref_mean_absolute_error ref_r2_score ref_mean.

Definition toy_main : list frame_row -> Z -> result (option main_state) :=
  @main toy ref_mean_squared_error ref_mean_absolute_error ref_r2_score ref_mean.

(** Two configurations of the toy network that differ in their learning
    rate. *)
Definition toy_configurations : list grid_config :=
  [toy_grid_config; {| lookback := 2; ffnn := toy_config 0.5 3 |}].

Lemma best_is_minimal_witness :
  exists st,
    for_each (toy_main_body toy_frame 1 3) toy_configurations main_start = Ok st /\
    forall g r, In g toy_configurations ->
      toy_run_configuration toy_frame 1 3 g = Ok r ->
      (RMSE (metrics r) <? best_RMSE (best_ffnn_metrics st))%float = false.
Proof.
  eexists. split; [vm_compute; reflexivity|].
  refine (proj1 (@best_is_minimal toy ref_mean_squared_error ref_mean_absolute_error
                   ref_r2_score ref_mean toy_frame 1 3 toy_configurations _ _)).
  vm_compute. reflexivity.
Defined.

Lemma main_reports_best_witness :
  exists st,
    for_each (toy_main_body toy_frame 1 3) toy_configurations main_start = Ok st /\
    reports_best (best_ffnn_metrics st) = true.
Proof.
  eexists. split; [vm_compute; reflexivity|].
  refine (proj2 (@main_reports_best toy ref_mean_squared_error ref_mean_absolute_error
                   ref_r2_score ref_mean toy_frame 1 3 toy_configurations _ _) _).
  - vm_compute. reflexivity.
  - exists toy_grid_config. eexists. split; [now left|].
    split; vm_compute; reflexivity.
Defined.

Lemma results_keep_two_layer_runs_witness :
  exists st,
    for_each (toy_main_body toy_long_frame 1 3) (ffnn_configurations 21) main_start
      = Ok st /\
    length (ffnn_configurations 21) = 24 /\
    length (all_ffnn_run_results st) = 12.
Proof.
  eexists. split; [vm_compute; reflexivity|].
  refine (let H := @results_keep_two_layer_runs toy ref_mean_squared_error
                     ref_mean_absolute_error ref_r2_score ref_mean toy_long_frame 1 3 21
                     _ _ in
          conj (proj1 H) (proj1 (proj2 H))).
  vm_compute. reflexivity.
Defined.



(** With one test point the toy grid is trained and nothing is scored. *)
Example toy_main_tiny_test_set :
  match toy_main toy_long_frame 1 with
  | Ok (Some st) => length (all_ffnn_run_results st) =? 12
  | _ => false
  end = true.
Proof. vm_compute. reflexivity. Qed.

Lemma summary_mape_cell_of_evaluation_witness :
  exists m,
    ref_evaluate_model [100; 200]%float [110; 190]%float = Ok m /\
    summary_mape_cell (MAPE m) = Percent (MAPE m).
Proof.
  eexists. split; [vm_compute; reflexivity|].
  refine (@summary_mape_cell_of_evaluation ref_mean_squared_error ref_mean_absolute_error
            ref_r2_score ref_mean [100; 200]%float [110; 190]%float _ _).
  vm_compute. reflexivity.
Defined.

End Driver.
